(** * Web Stories editor: paginated media gallery and text resize handler

    A shallow embedding of two source files of the story editor:

    - the [PaginatedMediaGallery] React component (infinite scrolling of a
      media pane: when to ask for the next page, the delayed loading pill, the
      scroll reset and the scrollbar padding compensation);
    - [updateForResizeEvent], the callback of the text element for Moveable
      resize events.

    DOM metrics that the DOM declares as integers ([offsetWidth],
    [clientWidth], [scrollHeight], [clientHeight]) are [Z]; scroll offsets and
    CSS lengths, which may be fractional, are [Q].  Time is counted in
    milliseconds as [N].  JavaScript exceptions are explicit: every embedded
    function whose body dereferences a possibly null reference returns a
    [completion]. *)

From Stdlib Require Import ZArith NArith QArith Bool List String Lia.
Import ListNotations.

Local Open Scope Z_scope.

(** ** JavaScript completions *)

Module Js.

Inductive error : Type :=
| TypeError.

Inductive completion (A : Type) : Type :=
| Normal (a : A)
| Throw (e : error).

Arguments Normal {A} a.
Arguments Throw {A} e.

Definition ret {A : Type} (a : A) : completion A := Normal a.

Definition bind {A B : Type} (c : completion A) (k : A -> completion B)
  : completion B :=
  match c with
  | Normal a => k a
  | Throw e => Throw e
  end.

(** [o.f] where [o] may be [null] or [undefined]: reading a property of a
    null reference raises a TypeError. *)
Definition prop {O A : Type} (f : O -> A) (o : option O) : completion A :=
  match o with
  | Some x => Normal (f x)
  | None => Throw TypeError
  end.

(** Truthiness of an object reference: [!o] is [negb (truthy o)]. *)
Definition truthy {O : Type} (o : option O) : bool :=
  match o with
  | Some _ => true
  | None => false
  end.

End Js.

Import Js.

Notation "x <- c ;; k" := (Js.bind c (fun x => k))
  (at level 61, c at next level, right associativity).

(** ** The part of the DOM the component touches *)

Module Dom.

Inductive EventName : Type :=
| scroll
| resize.

Definition EventName_eqb (a b : EventName) : bool :=
  match a, b with
  | scroll, scroll => true
  | resize, resize => true
  | _, _ => false
  end.

(** A registered listener: the event type and the identity of the handler
    function. *)
Definition Listener : Type := (EventName * nat)%type.

Definition Listener_eqb (a b : Listener) : bool :=
  EventName_eqb (fst a) (fst b) && Nat.eqb (snd a) (snd b).

Record Element : Type := mkElement {
  offsetWidth : Z;
  clientWidth : Z;
  scrollHeight : Z;
  clientHeight : Z;
  scrollTop : Q;
  scrollLeft : Q;
  (** [parseFloat(getComputedStyle(el).getPropertyValue('padding-left'))] *)
  paddingLeft : Q;
  (** [el.style['padding-right']] in px, [None] while it is not set. *)
  stylePaddingRight : option Q;
  listeners : list Listener
}.

(** [el.scrollTo(x, y)].  The browser clamps the offsets to the scrollable
    range; the component only ever asks for the origin. *)
Definition scrollTo (x y : Q) (el : Element) : Element :=
  {| offsetWidth := offsetWidth el;
     clientWidth := clientWidth el;
     scrollHeight := scrollHeight el;
     clientHeight := clientHeight el;
     scrollTop := y;
     scrollLeft := x;
     paddingLeft := paddingLeft el;
     stylePaddingRight := stylePaddingRight el;
     listeners := listeners el |}.

Definition scrollOffset (el : Element) : Q * Q := (scrollLeft el, scrollTop el).

(** [el.style['padding-right'] = v + 'px'] *)
Definition setStylePaddingRight (v : Q) (el : Element) : Element :=
  {| offsetWidth := offsetWidth el;
     clientWidth := clientWidth el;
     scrollHeight := scrollHeight el;
     clientHeight := clientHeight el;
     scrollTop := scrollTop el;
     scrollLeft := scrollLeft el;
     paddingLeft := paddingLeft el;
     stylePaddingRight := Some v;
     listeners := listeners el |}.

(** [target.addEventListener(type, handler)]: a listener that is already
    registered is not registered again. *)
Definition addListener (l : Listener) (ls : list Listener) : list Listener :=
  if existsb (Listener_eqb l) ls then ls else ls ++ [l].

(** [target.removeEventListener(type, handler)] *)
Definition removeListener (l : Listener) (ls : list Listener) : list Listener :=
  filter (fun l' => negb (Listener_eqb l l')) ls.

Definition withListeners (ls : list Listener) (el : Element) : Element :=
  {| offsetWidth := offsetWidth el;
     clientWidth := clientWidth el;
     scrollHeight := scrollHeight el;
     clientHeight := clientHeight el;
     scrollTop := scrollTop el;
     scrollLeft := scrollLeft el;
     paddingLeft := paddingLeft el;
     stylePaddingRight := stylePaddingRight el;
     listeners := ls |}.

End Dom.

Import Dom.

(** ** React hooks: dependency arrays *)

Module Hooks.

(** An effect with a dependency array runs after the first render and after
    every render in which some dependency differs from the previous one. *)
Definition depsChanged {D : Type} (eqb : D -> D -> bool)
    (prev : option D) (next : D) : bool :=
  match prev with
  | None => true
  | Some d => negb (eqb d next)
  end.

End Hooks.

(** ** PaginatedMediaGallery *)

Module Gallery.

Definition ROOT_MARGIN : Z := 300.

Definition SHOW_LOADING_PILL_DELAY_MS : N := 1000%N.

(** The props that the hooks of the component read.  [providerType],
    [resources] and [onInsert] only reach the rendered tree. *)
Record Props : Type := mkProps {
  searchTerm : option string;
  selectedCategoryId : option string;
  isMediaLoading : bool;
  isMediaLoaded : bool;
  hasMore : bool
}.

(** Invocations of callback props, in order. *)
Inductive Call : Type :=
| setNextPage.

(** [loadNextPageIfNeeded], with [current] the value of
    [refContainer.current]; the result lists the callback invocations. *)
Definition loadNextPageIfNeeded (current : option Element) (p : Props)
  : completion (list Call) :=
  let node := current in
  if negb (truthy node) || negb (hasMore p) || negb (isMediaLoaded p)
     || isMediaLoading p
  then ret []
  else
    sh <- prop scrollHeight node ;;
    st <- prop scrollTop node ;;
    ch <- prop clientHeight node ;;
    let bottom := Qle_bool (inject_Z sh - st) (inject_Z (ch + ROOT_MARGIN)) in
    if bottom then ret [setNextPage]
    else
      ch' <- prop clientHeight node ;;
      sh' <- prop scrollHeight node ;;
      if ch' =? sh' then ret [setNextPage]
      else ret [].

(** The effect [refContainer.current?.scrollTo(0, 0)]. *)
Definition scrollResetEffect (current : option Element)
  : completion (option Element) :=
  match current with
  | None => ret None
  | Some el => ret (Some (scrollTo 0 0 el))
  end.

Definition ScrollDeps : Type := (option string * option string)%type.

Definition optString_eqb (a b : option string) : bool :=
  match a, b with
  | None, None => true
  | Some x, Some y => String.eqb x y
  | _, _ => false
  end.

Definition ScrollDeps_eqb (a b : ScrollDeps) : bool :=
  optString_eqb (fst a) (fst b) && optString_eqb (snd a) (snd b).

Definition scrollDeps (p : Props) : ScrollDeps :=
  (searchTerm p, selectedCategoryId p).

(** [useEffect(scrollResetEffect, [searchTerm, selectedCategoryId])] in a
    render with props [p]; [prev] holds the dependencies of the previous
    render, [None] on mount. *)
Definition useScrollReset (prev : option ScrollDeps) (p : Props)
    (current : option Element) : completion (option Element) :=
  if Hooks.depsChanged ScrollDeps_eqb prev (scrollDeps p)
  then scrollResetEffect current
  else ret current.

(** What an effect returns: [undefined] or a function that removes the two
    listeners it registered. *)
Inductive ListenerCleanup : Type :=
| noCleanup
| removeListeners (handler : nat).

(** The scroll/resize effect.  [window] is the listener list of the window
    object and [handleScrollOrResize] the identity of the debounced
    callback. *)
Definition listenersEffect (current : option Element)
    (window : list Listener) (handleScrollOrResize : nat)
  : completion (option Element * list Listener * ListenerCleanup) :=
  let node := current in
  match node with
  | None => ret (current, window, noCleanup)
  | Some el =>
      let el' :=
        withListeners (addListener (scroll, handleScrollOrResize) (listeners el))
          el in
      let window' := addListener (resize, handleScrollOrResize) window in
      ret (Some el', window', removeListeners handleScrollOrResize)
  end.

(** Running the function the scroll/resize effect returned, on the node it
    captured. *)
Definition runListenerCleanup (c : ListenerCleanup) (node : option Element)
    (window : list Listener) : option Element * list Listener :=
  match c, node with
  | removeListeners h, Some el =>
      (Some (withListeners (removeListener (scroll, h) (listeners el)) el),
       removeListener (resize, h) window)
  | _, _ => (node, window)
  end.

(** The component instance: [refContainer.current] and the [scrollbarWidth]
    state. *)
Record Instance : Type := mkInstance {
  refContainer : option Element;
  scrollbarWidth : Z
}.

(** The callback ref.  [setScrollbarWidth] takes effect in the next
    render. *)
Definition refCallbackContainer (element : option Element) (s : Instance)
  : Instance :=
  let s := {| refContainer := element; scrollbarWidth := scrollbarWidth s |} in
  match element with
  | None => s
  | Some el =>
      {| refContainer := refContainer s;
         scrollbarWidth := offsetWidth el - clientWidth el |}
  end.

(** The layout effect that recalculates the padding, as run by a render that
    saw [width] as the value of the [scrollbarWidth] state. *)
Definition paddingLayoutEffect (width : Z) (current : option Element)
  : completion (option Element) :=
  if width =? 0 then ret current
  else
    currentPaddingLeft <- prop paddingLeft current ;;
    el <- prop (fun el => el) current ;;
    ret (Some (setStylePaddingRight (currentPaddingLeft - inject_Z width) el)).

(** A mounted component between two renders: its instance and the
    dependency of the last run of the padding layout effect. *)
Record Fiber : Type := mkFiber {
  inst : Instance;
  layoutDeps : option Z
}.

(** The commit of one render.  The render reads the [scrollbarWidth] state;
    React attaches the ref of the container before it runs the layout effects
    of the component, and the effect is
    [useLayoutEffect(..., [scrollbarWidth, refContainer])] where the ref
    object never changes. *)
Definition commit (element : option Element) (f : Fiber) : completion Fiber :=
  let width := scrollbarWidth (inst f) in
  let i := refCallbackContainer element (inst f) in
  if Hooks.depsChanged Z.eqb (layoutDeps f) width then
    current <- paddingLayoutEffect width (refContainer i) ;;
    ret {| inst := {| refContainer := current;
                      scrollbarWidth := scrollbarWidth i |};
           layoutDeps := Some width |}
  else ret {| inst := i; layoutDeps := layoutDeps f |}.

(** The render that a state update asks for: the ref is attached to the
    same node again. *)
Definition rerender (f : Fiber) : completion Fiber :=
  commit (refContainer (inst f)) f.

(** The component before its first render: [useState(0)], [useRef()]. *)
Definition unmounted : Fiber :=
  {| inst := {| refContainer := None; scrollbarWidth := 0 |};
     layoutDeps := None |}.

(** No render is pending: the last render saw the current state. *)
Definition settled (f : Fiber) : Prop :=
  layoutDeps f = Some (scrollbarWidth (inst f)).

(** The browser lays the container out again with a scrollbar of another
    width. *)
Definition relayout (newClientWidth : Z) (el : Element) : Element :=
  {| offsetWidth := offsetWidth el;
     clientWidth := newClientWidth;
     scrollHeight := scrollHeight el;
     clientHeight := clientHeight el;
     scrollTop := scrollTop el;
     scrollLeft := scrollLeft el;
     paddingLeft := paddingLeft el;
     stylePaddingRight := stylePaddingRight el;
     listeners := listeners el |}.

End Gallery.

(** ** Timers of the event loop *)

Module Timers.

Local Open Scope N_scope.

Section WithCallback.

Variable Callback : Type.

Record Timer : Type := mkTimer {
  timerId : nat;
  deadline : N;
  callback : Callback
}.

Record Loop : Type := mkLoop {
  now : N;
  nextTimerId : nat;
  pending : list Timer
}.

(** [setTimeout(cb, delay)]: the identifier of the new timer and the loop
    with the timer armed. *)
Definition setTimeout (cb : Callback) (delay : N) (l : Loop) : nat * Loop :=
  (nextTimerId l,
   {| now := now l;
      nextTimerId := S (nextTimerId l);
      pending := pending l ++ [{| timerId := nextTimerId l;
                                  deadline := now l + delay;
                                  callback := cb |}] |}).

(** [clearTimeout(id)] *)
Definition clearTimeout (id : nat) (l : Loop) : Loop :=
  {| now := now l;
     nextTimerId := nextTimerId l;
     pending := filter (fun t => negb (Nat.eqb (timerId t) id)) (pending l) |}.

Definition isDue (t : N) (tm : Timer) : bool := deadline tm <=? t.

(** [dt] milliseconds pass: the callbacks of the timers whose delay has run
    out, in the order in which they were armed, and the loop without them. *)
Definition elapse (dt : N) (l : Loop) : list Callback * Loop :=
  let t := now l + dt in
  (map callback (filter (isDue t) (pending l)),
   {| now := t;
      nextTimerId := nextTimerId l;
      pending := filter (fun tm => negb (isDue t tm)) (pending l) |}).

End WithCallback.

Arguments timerId {Callback} _.
Arguments deadline {Callback} _.
Arguments callback {Callback} _.
Arguments now {Callback} _.
Arguments nextTimerId {Callback} _.
Arguments pending {Callback} _.
Arguments setTimeout {Callback} _ _ _.
Arguments clearTimeout {Callback} _ _.
Arguments elapse {Callback} _ _.
Arguments isDue {Callback} _ _.

End Timers.

(** ** The loading pill of PaginatedMediaGallery *)

Module LoadingPill.

Import Gallery.
Local Open Scope N_scope.

(** The only timer callback of the component:
    [() => setShowLoadingPill(v)], with [v] the value of [isMediaLoading] in
    the render that armed the timer. *)
Inductive Callback : Type :=
| setShowLoadingPillTo (v : bool).

(** What the effect returns: [undefined] or
    [() => clearTimeout(showLoadingTimeout)]. *)
Inductive Cleanup : Type :=
| noCleanup
| clearShowLoadingTimeout (showLoadingTimeout : nat).

Record State : Type := mkState {
  showLoadingPill : bool;
  loop : Timers.Loop Callback;
  pillDeps : option (bool * bool);
  pillCleanup : Cleanup
}.

Definition setShowLoadingPill (v : bool) (s : State) : State :=
  {| showLoadingPill := v;
     loop := loop s;
     pillDeps := pillDeps s;
     pillCleanup := pillCleanup s |}.

Definition runCallback (s : State) (cb : Callback) : State :=
  match cb with
  | setShowLoadingPillTo v => setShowLoadingPill v s
  end.

Definition runCleanup (s : State) : State :=
  match pillCleanup s with
  | noCleanup => s
  | clearShowLoadingTimeout id =>
      {| showLoadingPill := showLoadingPill s;
         loop := Timers.clearTimeout id (loop s);
         pillDeps := pillDeps s;
         pillCleanup := noCleanup |}
  end.

(** The body of the effect; the cleanup it returns is stored in the state. *)
Definition loadingPillEffect (isMediaLoading hasMore : bool) (s : State)
  : State :=
  if isMediaLoading && hasMore then
    let '(showLoadingTimeout, l) :=
      Timers.setTimeout (setShowLoadingPillTo isMediaLoading)
        SHOW_LOADING_PILL_DELAY_MS (loop s) in
    {| showLoadingPill := showLoadingPill s;
       loop := l;
       pillDeps := pillDeps s;
       pillCleanup := clearShowLoadingTimeout showLoadingTimeout |}
  else
    {| showLoadingPill := false;
       loop := loop s;
       pillDeps := pillDeps s;
       pillCleanup := noCleanup |}.

Definition pillDeps_eqb (a b : bool * bool) : bool :=
  Bool.eqb (fst a) (fst b) && Bool.eqb (snd a) (snd b).

(** [useEffect(loadingPillEffect, [isMediaLoading, hasMore])] in a render:
    when a dependency changed, the cleanup of the previous run is called and
    the effect runs again. *)
Definition render (isMediaLoading hasMore : bool) (s : State) : State :=
  if Hooks.depsChanged pillDeps_eqb (pillDeps s) (isMediaLoading, hasMore) then
    let s := runCleanup s in
    let s := loadingPillEffect isMediaLoading hasMore s in
    {| showLoadingPill := showLoadingPill s;
       loop := loop s;
       pillDeps := Some (isMediaLoading, hasMore);
       pillCleanup := pillCleanup s |}
  else s.

(** Time passes and the timers that are due fire. *)
Definition elapse (dt : N) (s : State) : State :=
  let '(cbs, l) := Timers.elapse dt (loop s) in
  fold_left runCallback cbs
    {| showLoadingPill := showLoadingPill s;
       loop := l;
       pillDeps := pillDeps s;
       pillCleanup := pillCleanup s |}.

(** The component before its first render: [useState(false)], no timer. *)
Definition initial : State :=
  {| showLoadingPill := false;
     loop := {| Timers.now := 0; Timers.nextTimerId := O; Timers.pending := [] |};
     pillDeps := None;
     pillCleanup := noCleanup |}.

Inductive Event : Type :=
| Render (isMediaLoading hasMore : bool)
| Elapse (dt : N).

Definition step (s : State) (e : Event) : State :=
  match e with
  | Render l h => render l h s
  | Elapse dt => elapse dt s
  end.

Definition run (tr : list Event) : State := fold_left step tr initial.

(** For how long, at the end of a trace, the props have had
    [isMediaLoading] and [hasMore] both true without interruption; [None]
    when they are not both true. *)
Definition observe (held : option N) (e : Event) : option N :=
  match e with
  | Render l h =>
      if l && h then Some (match held with Some d => d | None => 0 end)
      else None
  | Elapse dt => option_map (fun d => d + dt) held
  end.

Definition heldFor (tr : list Event) : option N := fold_left observe tr None.

(** The three shapes of a reachable state. *)

(** Waiting: the pill is hidden and one timer is pending, which the stored
    cleanup would clear; [d] milliseconds of its delay have passed. *)
Definition armed (s : State) (d : N) : Prop :=
  showLoadingPill s = false /\
  d < SHOW_LOADING_PILL_DELAY_MS /\
  exists id dl,
    Timers.pending (loop s)
    = [{| Timers.timerId := id;
          Timers.deadline := dl;
          Timers.callback := setShowLoadingPillTo true |}] /\
    pillCleanup s = clearShowLoadingTimeout id /\
    dl + d = Timers.now (loop s) + SHOW_LOADING_PILL_DELAY_MS.

(** Shown: the timer has fired. *)
Definition shown (s : State) (d : N) : Prop :=
  showLoadingPill s = true /\
  SHOW_LOADING_PILL_DELAY_MS <= d /\
  Timers.pending (loop s) = [].

(** Idle: the pill is hidden and nothing is pending. *)
Definition idle (s : State) : Prop :=
  showLoadingPill s = false /\
  Timers.pending (loop s) = [] /\
  pillCleanup s = noCleanup.

Definition invariant (s : State) (held : option N) : Prop :=
  match held with
  | Some d => pillDeps s = Some (true, true) /\ (armed s d \/ shown s d)
  | None => pillDeps s <> Some (true, true) /\ idle s
  end.

End LoadingPill.

(** ** updateForResizeEvent of the text element *)

Module TextResize.

Local Open Scope Q_scope.

(** The values of the fields of the objects the callback returns. *)
Inductive Value : Type :=
| VNumber (q : Q)
| VBoolean (b : bool).

(** An object literal: its fields in the order in which they are written. *)
Definition Object : Type := list (string * Value).

Definition hasField (k : string) (o : Object) : bool :=
  existsb (fun kv => String.eqb (fst kv) k) o.

(** [x !== 0] on a component of a Moveable direction. *)
Definition isNonZero (x : Z) : bool := negb (x =? 0)%Z.

Section UpdateForResizeEvent.

(** The element model of the editor and the imports of the callback
    ([../../utils/textMeasurements], [../../units], [./index]) are not part
    of this development: the callback is embedded over any of them. *)
Variable Element : Type.
Variable width : Element -> Q.
Variable calculateFitTextFontSize : Element -> Q -> Q -> Q.
Variable calculateTextHeight : Element -> Q -> Q.
Variable dataPixels : Q -> Q.
(** [resizeRules.minFontSize] *)
Variable minFontSize : Q.

(** [direction] and [delta] are the two-component arrays Moveable passes;
    [delta] may be missing; [null] is [None]. *)
Definition updateForResizeEvent (element : Element) (direction : Z * Z)
    (newWidth newHeight : Q) (delta : option (Q * Q)) : option Object :=
  let isResizingWidth := isNonZero (fst direction) in
  let isResizingHeight := isNonZero (snd direction) in
  let isSizingUp :=
    match delta with
    | Some d => negb (Qle_bool (fst d + snd d) 0)
    | None => true
    end in
  if isResizingHeight then
    let fontSize :=
      calculateFitTextFontSize element
        (if Qeq_bool newWidth 0 then width element else newWidth)
        newHeight in
    let fontSizeInDataPx := dataPixels fontSize in
    Some [("fontSize"%string, VNumber fontSizeInDataPx);
          ("skipUpdates"%string,
           VBoolean (negb isSizingUp
                     && negb (Qle_bool minFontSize fontSizeInDataPx)))]
  else if isResizingWidth then
    Some [("height"%string,
           VNumber (dataPixels (calculateTextHeight element newWidth)))]
  else None.

End UpdateForResizeEvent.

End TextResize.

(** ** Concrete containers, props and traces used by the examples *)

Module Scenarios.

Import Gallery.

Definition container (sh ch : Z) (st : Q) : Element :=
  {| offsetWidth := 320;
     clientWidth := 320;
     scrollHeight := sh;
     clientHeight := ch;
     scrollTop := st;
     scrollLeft := 0;
     paddingLeft := 24;
     stylePaddingRight := None;
     listeners := [] |}.

(** Fifty units above the bottom of a long list. *)
Definition nearBottom : Element := container 1000 200 750.

(** A list that does not fill the pane. *)
Definition underFull : Element := container 200 200 0.

(** A long list scrolled to its top. *)
Definition atTop : Element := container 5000 200 0.

Definition props (loading loaded more : bool) : Props :=
  {| searchTerm := Some "cat"%string;
     selectedCategoryId := None;
     isMediaLoading := loading;
     isMediaLoaded := loaded;
     hasMore := more |}.

(** A container laid out with a 15 unit scrollbar and a left padding of 24,
    as React hands it to the callback ref on mount. *)
Definition withScrollbar : Element := relayout 305 nearBottom.

(** The scrollbar of the mounted container disappears. *)
Definition scrollbarGone (f : Fiber) : option Element :=
  option_map (relayout 320) (refContainer (inst f)).

(** Mount with a scrollbar, let the component settle, lose the scrollbar,
    let the component settle again: the fiber at each stage. *)
Definition scrollbarStory : completion (Fiber * Fiber) :=
  f1 <- commit (Some withScrollbar) unmounted ;;
  f2 <- rerender f1 ;;
  f3 <- commit (scrollbarGone f2) f2 ;;
  f4 <- rerender f3 ;;
  ret (f2, f4).

Definition rightPadding (f : Fiber) : option Q :=
  match refContainer (inst f) with
  | Some el => stylePaddingRight el
  | None => None
  end.

Definition measuredWidth (f : Fiber) : option Z :=
  option_map (fun el => offsetWidth el - clientWidth el) (refContainer (inst f)).

Definition fiberMounted : Fiber :=
  {| inst := {| refContainer := Some nearBottom; scrollbarWidth := 0 |};
     layoutDeps := Some 0 |}.

(** [updateForResizeEvent] over a text element that is just its width, with
    a font as tall as the box, a text as tall as the box is wide, no rounding
    and a minimal font size of 12. *)
Definition sampleUpdate : Q -> Z * Z -> Q -> Q -> option (Q * Q)
                          -> option TextResize.Object :=
  TextResize.updateForResizeEvent Q (fun w => w) (fun _ _ h => h)
    (fun _ w => w) (fun q => q) 12.

End Scenarios.

From Stdlib Require Import Lqa.

(** ** The scroll/resize effect over the renders of the component *)

Module ListenerHook.

Import Gallery.

(** The container and the window with their listeners, and what React
    keeps for [useEffect(..., [handleScrollOrResize])]: the dependency and
    the cleanup of the last run. *)
Record State : Type := mkState {
  node : option Element;
  window : list Listener;
  deps : option nat;
  cleanup : ListenerCleanup
}.

(** A render in which the debounced callback is [handleScrollOrResize]:
    when it is not the callback of the previous render, the cleanup of the
    previous run is called and the effect runs again. *)
Definition render (handleScrollOrResize : nat) (s : State)
  : completion State :=
  if Hooks.depsChanged Nat.eqb (deps s) handleScrollOrResize then
    let '(node1, window1) :=
      runListenerCleanup (cleanup s) (node s) (window s) in
    r <- listenersEffect node1 window1 handleScrollOrResize ;;
    let '(node2, window2, c) := r in
    ret {| node := node2;
           window := window2;
           deps := Some handleScrollOrResize;
           cleanup := c |}
  else ret s.

Fixpoint renders (handlers : list nat) (s : State) : completion State :=
  match handlers with
  | [] => ret s
  | h :: rest => s' <- render h s ;; renders rest s'
  end.

(** On unmount React calls the cleanup of the last run. *)
Definition unmount (s : State) : State :=
  let '(node1, window1) :=
    runListenerCleanup (cleanup s) (node s) (window s) in
  {| node := node1; window := window1; deps := deps s; cleanup := noCleanup |}.

(** The component before its first render, with its container in the
    document. *)
Definition mountedOn (el : Element) (windowListeners : list Listener)
  : State :=
  {| node := Some el;
     window := windowListeners;
     deps := None;
     cleanup := noCleanup |}.

(** No handler of [handlers] is registered in [ls] for the event [ev]. *)
Definition foreignTo (ev : EventName) (handlers : list nat)
    (ls : list Listener) : Prop :=
  forall h, In h handlers -> existsb (Listener_eqb (ev, h)) ls = false.

End ListenerHook.

(** ** The check that follows a render
    ([loadNextPageIfNeededAfterGalleryRendering]) *)

Module SettleCheck.

Import Gallery.
Local Open Scope N_scope.

(** The dependencies of [useCallback] for [loadNextPageIfNeeded]:
    [hasMore], [isMediaLoaded], [isMediaLoading] and the identity of the
    [setNextPage] prop. *)
Definition CallbackDeps : Type := (bool * bool * bool * nat)%type.

Definition callbackDeps (p : Props) (setNextPageId : nat) : CallbackDeps :=
  (hasMore p, isMediaLoaded p, isMediaLoading p, setNextPageId).

Definition CallbackDeps_eqb (a b : CallbackDeps) : bool :=
  let '(m1, d1, l1, f1) := a in
  let '(m2, d2, l2, f2) := b in
  Bool.eqb m1 m2 && Bool.eqb d1 d2 && Bool.eqb l1 l2 && Nat.eqb f1 f2.

(** What runs after [await sleep(200)]: the [loadNextPageIfNeeded] of the
    render that started the wait, which closes over the props of that
    render. *)
Inductive Callback : Type :=
| loadNextPageIfNeededOf (p : Props).

Record State : Type := mkState {
  node : option Element;
  loop : Timers.Loop Callback;
  deps : option CallbackDeps;
  requests : list Call
}.

(** [useLayoutEffect(..., [loadNextPageIfNeeded])]: the effect starts the
    wait and returns no cleanup. *)
Definition render (p : Props) (setNextPageId : nat) (s : State) : State :=
  if Hooks.depsChanged CallbackDeps_eqb (deps s) (callbackDeps p setNextPageId)
  then
    {| node := node s;
       loop := snd (Timers.setTimeout (loadNextPageIfNeededOf p) 200 (loop s));
       deps := Some (callbackDeps p setNextPageId);
       requests := requests s |}
  else s.

(** The callback reads [refContainer.current] when it runs. *)
Definition runCallback (s : State) (cb : Callback) : State :=
  match cb with
  | loadNextPageIfNeededOf p =>
      match loadNextPageIfNeeded (node s) p with
      | Normal calls =>
          {| node := node s;
             loop := loop s;
             deps := deps s;
             requests := requests s ++ calls |}
      | Throw _ => s
      end
  end.

Definition elapse (dt : N) (s : State) : State :=
  let '(cbs, l) := Timers.elapse dt (loop s) in
  fold_left runCallback cbs
    {| node := node s; loop := l; deps := deps s; requests := requests s |}.

(** The browser lays the container out again, or the user scrolls it. *)
Definition layout (current : option Element) (s : State) : State :=
  {| node := current; loop := loop s; deps := deps s; requests := requests s |}.

Inductive Event : Type :=
| Render (p : Props) (setNextPageId : nat)
| Elapse (dt : N)
| Layout (current : option Element).

Definition step (s : State) (e : Event) : State :=
  match e with
  | Render p f => render p f s
  | Elapse dt => elapse dt s
  | Layout c => layout c s
  end.

Definition initial : State :=
  {| node := None;
     loop := {| Timers.now := 0; Timers.nextTimerId := O; Timers.pending := [] |};
     deps := None;
     requests := [] |}.

Definition run (tr : list Event) : State := fold_left step tr initial.

Definition isRender (e : Event) : bool :=
  match e with
  | Render _ _ => true
  | _ => false
  end.

(** What the check of a render with props [p] asks for on the container
    [current]. *)
Definition callsOf (current : option Element) (p : Props) : list Call :=
  match loadNextPageIfNeeded current p with
  | Normal calls => calls
  | Throw _ => []
  end.

End SettleCheck.

(** ** What the component renders *)

Module GalleryView.

Import Gallery.

Section View.

(** The resources and what an attribution component renders are opaque
    here. *)
Variable Resource : Type.
Variable Node : Type.

(** An entry of [PROVIDERS] (the provider configuration is not part of this
    development): the one field the gallery reads. *)
Record Provider : Type := mkProvider {
  attributionComponent : option (unit -> Node)
}.

(** The value of the lookup [PROVIDERS[providerType]]: [None] when it is
    [undefined], [Some] for whatever else the lookup finds, own or inherited
    key alike, with [attributionComponent] [None] when that value has no
    such property. *)
Variable PROVIDERS : string -> option Provider.

Inductive Body : Type :=
| MediaGalleryMessage
| MediaGalleryOf (providerType : string) (resources : list Resource).

(** The fragment the component returns: the content of the container, the
    loading pill and the attribution. *)
Record View : Type := mkView {
  body : Body;
  loadingPill : bool;
  attributionShown : option Node
}.

(** [providerType !== 'local' &&
     PROVIDERS[providerType].attributionComponent &&
     PROVIDERS[providerType].attributionComponent()];
    [false] and [undefined] render nothing and are [None]. *)
Definition attributionOf (providerType : string) : completion (option Node) :=
  if negb (String.eqb providerType "local") then
    component <- prop attributionComponent (PROVIDERS providerType) ;;
    match component with
    | Some render => ret (Some (render tt))
    | None => ret None
    end
  else ret None.

Definition view (providerType : string) (resources : list Resource)
    (isMediaLoaded showLoadingPill : bool) : completion View :=
  let mediaGallery :=
    if isMediaLoaded && Nat.eqb (List.length resources) 0
    then MediaGalleryMessage
    else MediaGalleryOf providerType resources in
  attribution <- attributionOf providerType ;;
  ret {| body := mediaGallery;
         loadingPill := showLoadingPill;
         attributionShown :=
           if negb showLoadingPill then attribution else None |}.

End View.

Arguments MediaGalleryMessage {Resource}.
Arguments MediaGalleryOf {Resource} providerType resources.
Arguments attributionComponent {Node} _.
Arguments body {Resource Node} _.
Arguments loadingPill {Resource Node} _.
Arguments attributionShown {Resource Node} _.

End GalleryView.

(** ** Lifecycle of the loading pill and reading objects *)

Module Lifecycle.

(** On unmount React calls the cleanup of the last run of the loading pill
    effect. *)
Definition unmountPill (s : LoadingPill.State) : LoadingPill.State :=
  LoadingPill.runCleanup s.

(** [o[k]] on an object literal, [None] for [undefined]. *)
Definition getField (k : string) (o : TextResize.Object)
  : option TextResize.Value :=
  option_map snd (find (fun kv => String.eqb (fst kv) k) o).

End Lifecycle.

(** ** More concrete inputs for the examples *)

Module MoreScenarios.

Import Gallery Scenarios.

Definition foreignListeners : list Listener := [(scroll, 7%nat); (resize, 8%nat)].

Definition listening : Element := withListeners foreignListeners nearBottom.

(** A provider table with an entry for one provider, which has an
    attribution component rendering the number 1. *)
Definition oneProvider (providerType : string)
  : option (GalleryView.Provider nat) :=
  if String.eqb providerType "unsplash"
  then Some {| GalleryView.attributionComponent := Some (fun _ => 1%nat) |}
  else None.

(** What the component renders for that provider without resources, with
    the pill shown or hidden. *)
Definition unsplashView (pill : bool) : GalleryView.View nat nat :=
  {| GalleryView.body := GalleryView.MediaGalleryOf "unsplash" [];
     GalleryView.loadingPill := pill;
     GalleryView.attributionShown := if pill then None else Some 1%nat |}.

(** What it renders for the local library once it has loaded empty. *)
Definition emptyLocalView : GalleryView.View nat nat :=
  {| GalleryView.body := GalleryView.MediaGalleryMessage;
     GalleryView.loadingPill := false;
     GalleryView.attributionShown := None |}.

(** A settled component whose container has a 15 unit scrollbar and the
    right padding that compensates for it. *)
Definition paddedFiber : Fiber :=
  {| inst :=
       {| refContainer :=
            Some (setStylePaddingRight (24 - inject_Z 15) withScrollbar);
          scrollbarWidth := 15 |};
     layoutDeps := Some 15 |}.

(** The same container once the scrollbar is gone. *)
Definition paddedWithoutScrollbar : Element :=
  relayout 320 (setStylePaddingRight (24 - inject_Z 15) withScrollbar).

(** A render with nothing loading, and 100 time units later a render with
    a request in flight, over a container near its bottom. *)
Definition loadingStarted : list SettleCheck.Event :=
  [SettleCheck.Layout (Some nearBottom);
   SettleCheck.Render (props false true true) 0;
   SettleCheck.Elapse 100;
   SettleCheck.Render (props true true true) 0].

End MoreScenarios.

(** ** Helpers of the page attachment test *)

Module PageAttachmentTest.

Local Open Scope Q_scope.

(** What [getBoundingClientRect()] returns, as far as the helper reads it. *)
Record DOMRect : Type := mkDOMRect {
  x : Q;
  y : Q;
  width : Q;
  height : Q
}.

(** The point at which [clickOnTarget] clicks. *)
Definition clickOnTarget (target : DOMRect) : Q * Q :=
  (x target + width target / 2, y target + height target / 2).

End PageAttachmentTest.

(** * Properties of loadNextPageIfNeeded *)

Module LoadNextPage.

Import Gallery Scenarios.

Lemma guarded_returns (current : option Element) (p : Props) :
  negb (truthy current) || negb (hasMore p) || negb (isMediaLoaded p)
  || isMediaLoading p = true ->
  loadNextPageIfNeeded current p = Normal [].
Proof.
  unfold loadNextPageIfNeeded. intros ->. reflexivity.
Qed.

(** Past the guard the result only depends on the two geometric tests. *)
Lemma past_guard (el : Element) (p : Props) :
  hasMore p = true -> isMediaLoaded p = true -> isMediaLoading p = false ->
  loadNextPageIfNeeded (Some el) p =
  Normal
    (if Qle_bool (inject_Z (scrollHeight el) - scrollTop el)
                 (inject_Z (clientHeight el + ROOT_MARGIN))
     then [setNextPage]
     else if clientHeight el =? scrollHeight el then [setNextPage] else []).
Proof.
  unfold loadNextPageIfNeeded. intros -> -> ->. cbn.
  destruct (Qle_bool _ _); [reflexivity|].
  destruct (_ =? _); reflexivity.
Qed.

(** C1. When [hasMore] is false, an evaluation of [loadNextPageIfNeeded]
    returns normally without calling [setNextPage], whatever the container
    (present or not) and its scroll geometry are. *)
Theorem no_request_without_more (current : option Element) (p : Props) :
  hasMore p = false -> loadNextPageIfNeeded current p = Normal [].
Proof.
  intros H. apply guarded_returns. rewrite H.
  destruct (truthy current); reflexivity.
Qed.

Lemma no_request_without_more_witness :
  hasMore (props false true false) = false /\
  loadNextPageIfNeeded (Some nearBottom) (props false true false) = Normal [].
Proof.
  split; [reflexivity|].
  apply (no_request_without_more (Some nearBottom) (props false true false)).
  reflexivity.
Defined.

(** The guard on [isMediaLoading], for one evaluation: on props in which
    [isMediaLoading] is true, [loadNextPageIfNeeded] returns normally without
    calling [setNextPage].  The props are those of the render whose closure
    is evaluated, which need not be the latest render. *)
Theorem no_request_while_loading (current : option Element) (p : Props) :
  isMediaLoading p = true -> loadNextPageIfNeeded current p = Normal [].
Proof.
  intros H. apply guarded_returns. rewrite H.
  apply orb_true_r.
Qed.

Lemma no_request_while_loading_witness :
  isMediaLoading (props true true true) = true /\
  loadNextPageIfNeeded (Some underFull) (props true true true) = Normal [].
Proof.
  split; [reflexivity|].
  apply (no_request_while_loading (Some underFull) (props true true true)).
  reflexivity.
Defined.

(** C3, as stated, fails: with the container of the claim, [hasMore] true
    and [isMediaLoading] false, but before the first page has loaded
    ([isMediaLoaded] false), [setNextPage] is not called. *)
Lemma near_bottom_not_loaded_no_request :
  scrollHeight nearBottom = 1000 /\ scrollTop nearBottom = 750%Q /\
  clientHeight nearBottom = 200 /\
  hasMore (props false false true) = true /\
  isMediaLoading (props false false true) = false /\
  loadNextPageIfNeeded (Some nearBottom) (props false false true) = Normal [].
Proof. repeat split. Qed.

(** C3, amended. For a container with [scrollHeight] 1000, [scrollTop] 750
    and [clientHeight] 200, when [hasMore] is true, [isMediaLoaded] is true
    and [isMediaLoading] is false, one evaluation of [loadNextPageIfNeeded]
    calls [setNextPage] exactly once. *)
Theorem near_bottom_requests_once (el : Element) (p : Props) :
  scrollHeight el = 1000 -> (scrollTop el == 750)%Q -> clientHeight el = 200 ->
  hasMore p = true -> isMediaLoaded p = true -> isMediaLoading p = false ->
  loadNextPageIfNeeded (Some el) p = Normal [setNextPage].
Proof.
  intros Hsh Hst Hch Hm Hd Hl.
  rewrite past_guard by assumption.
  rewrite Hsh, Hch.
  replace (Qle_bool (inject_Z 1000 - scrollTop el)
             (inject_Z (200 + ROOT_MARGIN))) with true; [reflexivity|].
  symmetry. apply Qle_bool_iff. rewrite Hst. discriminate.
Qed.

Lemma near_bottom_requests_once_witness :
  loadNextPageIfNeeded (Some nearBottom) (props false true true)
  = Normal [setNextPage].
Proof.
  apply (near_bottom_requests_once nearBottom (props false true true));
    reflexivity.
Defined.

(** C4, as stated, fails: a container without overflow and [hasMore] true,
    but with a request in flight ([isMediaLoading] true): [setNextPage] is
    not called. *)
Lemma under_full_loading_no_request :
  clientHeight underFull = scrollHeight underFull /\
  hasMore (props true true true) = true /\
  loadNextPageIfNeeded (Some underFull) (props true true true) = Normal [].
Proof. repeat split. Qed.

(** C4, amended. For every container whose [clientHeight] equals its
    [scrollHeight], when [hasMore] is true, [isMediaLoaded] is true and
    [isMediaLoading] is false, an evaluation of [loadNextPageIfNeeded] calls
    [setNextPage], whatever [scrollTop] is, zero included. *)
Theorem under_full_requests (el : Element) (p : Props) :
  clientHeight el = scrollHeight el ->
  hasMore p = true -> isMediaLoaded p = true -> isMediaLoading p = false ->
  loadNextPageIfNeeded (Some el) p = Normal [setNextPage].
Proof.
  intros Heq Hm Hd Hl.
  rewrite past_guard by assumption.
  destruct (Qle_bool _ _); [reflexivity|].
  rewrite Heq, Z.eqb_refl. reflexivity.
Qed.

Lemma under_full_requests_witness :
  scrollTop underFull = 0%Q /\
  loadNextPageIfNeeded (Some underFull) (props false true true)
  = Normal [setNextPage].
Proof.
  split; [reflexivity|].
  apply (under_full_requests underFull (props false true true)); reflexivity.
Defined.

(** C9. One evaluation of [loadNextPageIfNeeded] returns normally and calls
    [setNextPage] at most once, for every container and every props; in
    particular when the container is both near its bottom and without
    overflow. *)
Theorem at_most_one_request (current : option Element) (p : Props) :
  exists calls,
    loadNextPageIfNeeded current p = Normal calls /\
    (List.length calls <= 1)%nat.
Proof.
  destruct current as [el|];
    [|exists []; split; [reflexivity | apply Nat.le_0_1]].
  destruct (hasMore p) eqn:Hm, (isMediaLoaded p) eqn:Hd,
    (isMediaLoading p) eqn:Hl;
    try (exists []; split; [|apply Nat.le_0_1];
         apply guarded_returns; rewrite Hm, Hd, Hl; reflexivity).
  rewrite (past_guard el p Hm Hd Hl).
  destruct (Qle_bool _ _); [|destruct (_ =? _)];
    eexists; (split; [reflexivity|]); cbn; lia.
Qed.

(** Far from the bottom of an overflowing list nothing is requested. *)
Example far_from_bottom_no_request :
  loadNextPageIfNeeded (Some atTop) (props false true true) = Normal [].
Proof. reflexivity. Qed.

End LoadNextPage.

(** * Properties of the effects of PaginatedMediaGallery *)

Module GalleryEffects.

Import Gallery Scenarios.

Lemma optString_eqb_eq (a b : option string) :
  optString_eqb a b = true <-> a = b.
Proof.
  destruct a as [x|], b as [y|]; cbn; try (split; congruence).
  rewrite String.eqb_eq. split; congruence.
Qed.

Lemma ScrollDeps_eqb_eq (a b : ScrollDeps) :
  ScrollDeps_eqb a b = true <-> a = b.
Proof.
  destruct a as [a1 a2], b as [b1 b2]. unfold ScrollDeps_eqb. cbn.
  rewrite andb_true_iff, !optString_eqb_eq. split.
  - intros [-> ->]. reflexivity.
  - intros H. injection H as -> ->. split; reflexivity.
Qed.

(** C6. In a render after the first, with the container mounted: when the
    search term or the selected category differs from the one of the previous
    render, the effect runs and leaves the container scrolled to the origin
    (0, 0); when both are the same, whatever else changed in the props, the
    effect does not run and the container is left as it is. *)
Theorem scroll_reset_on_search_or_category (p p' : Props) (el : Element) :
  (searchTerm p' <> searchTerm p \/
   selectedCategoryId p' <> selectedCategoryId p ->
   exists el',
     useScrollReset (Some (scrollDeps p)) p' (Some el) = Normal (Some el') /\
     scrollOffset el' = (0, 0)%Q) /\
  (searchTerm p' = searchTerm p /\
   selectedCategoryId p' = selectedCategoryId p ->
   useScrollReset (Some (scrollDeps p)) p' (Some el) = Normal (Some el)).
Proof.
  unfold useScrollReset, Hooks.depsChanged. split.
  - intros Hchg.
    destruct (ScrollDeps_eqb (scrollDeps p) (scrollDeps p')) eqn:E.
    + apply ScrollDeps_eqb_eq in E. unfold scrollDeps in E.
      injection E as E1 E2. destruct Hchg as [H|H]; congruence.
    + cbn. eexists. split; reflexivity.
  - intros [H1 H2].
    assert (E : ScrollDeps_eqb (scrollDeps p) (scrollDeps p') = true).
    { apply ScrollDeps_eqb_eq. unfold scrollDeps. congruence. }
    rewrite E. reflexivity.
Qed.

(** C7. When [refContainer.current] is null, [loadNextPageIfNeeded] returns
    normally without calling [setNextPage], the scroll reset effect returns
    normally and leaves the ref null, and the scroll/resize effect returns
    normally with no listener added to the window and no cleanup function:
    none of the three raises an exception. *)
Theorem null_ref_is_noop (p : Props) (prev : option ScrollDeps)
    (window : list Listener) (handleScrollOrResize : nat) :
  loadNextPageIfNeeded None p = Normal [] /\
  scrollResetEffect None = Normal None /\
  useScrollReset prev p None = Normal None /\
  listenersEffect None window handleScrollOrResize
  = Normal (None, window, noCleanup).
Proof.
  repeat split.
  unfold useScrollReset. destruct (Hooks.depsChanged _ _ _); reflexivity.
Qed.

Lemma commit_settled (f : Fiber) (el : Element) :
  settled f ->
  commit (Some el) f
  = Normal {| inst := {| refContainer := Some el;
                         scrollbarWidth := offsetWidth el - clientWidth el |};
              layoutDeps := layoutDeps f |}.
Proof.
  unfold settled, commit, Hooks.depsChanged. intros ->.
  rewrite Z.eqb_refl. reflexivity.
Qed.

Lemma commit_changed (i : Instance) (w : Z) (el : Element) :
  refContainer i = Some el -> scrollbarWidth i <> w ->
  commit (Some el) {| inst := i; layoutDeps := Some w |}
  = Normal
      {| inst :=
           {| refContainer :=
                Some (if scrollbarWidth i =? 0 then el
                      else setStylePaddingRight
                             (paddingLeft el - inject_Z (scrollbarWidth i)) el);
              scrollbarWidth := offsetWidth el - clientWidth el |};
         layoutDeps := Some (scrollbarWidth i) |}.
Proof.
  intros Href Hw. unfold commit, Hooks.depsChanged. cbn.
  assert (E : (w =? scrollbarWidth i) = false) by (apply Z.eqb_neq; congruence).
  rewrite E. cbn. unfold paddingLayoutEffect.
  destruct (scrollbarWidth i =? 0); reflexivity.
Qed.

(** C8. The code does not do what the claim, and its own comment
    ("Recalculates padding so that it stays centered"), say: the component
    mounts with a 15 unit scrollbar and a left padding of 24 and settles with
    a right padding of 24 - 15; the scrollbar then disappears (the width
    changes to zero) and the component renders until it settles again, with
    the right padding still 24 - 15 and not 24 - 0. *)
Lemma scrollbar_gone_padding_stale :
  exists f2 f4,
    scrollbarStory = Normal (f2, f4) /\
    settled f2 /\ measuredWidth f2 = Some 15 /\
    rightPadding f2 = Some (24 - inject_Z 15)%Q /\
    settled f4 /\ measuredWidth f4 = Some 0 /\
    rightPadding f4 = Some (24 - inject_Z 15)%Q /\
    ~ (24 - inject_Z 15 == 24 - inject_Z 0)%Q.
Proof.
  eexists. eexists. split; [reflexivity|].
  repeat split. discriminate.
Qed.

(** The two renders that follow a change of the measured scrollbar width. *)
Lemma renders_after_change (f : Fiber) (el : Element) :
  settled f ->
  offsetWidth el - clientWidth el <> scrollbarWidth (inst f) ->
  exists f1,
    commit (Some el) f = Normal f1 /\
    rerender f1
    = Normal
        {| inst :=
             {| refContainer :=
                  Some (if offsetWidth el - clientWidth el =? 0 then el
                        else setStylePaddingRight
                               (paddingLeft el
                                - inject_Z (offsetWidth el - clientWidth el))
                               el);
                scrollbarWidth := offsetWidth el - clientWidth el |};
           layoutDeps := Some (offsetWidth el - clientWidth el) |}.
Proof.
  intros Hs Hw. eexists.
  split; [apply (commit_settled f el Hs)|].
  unfold rerender. rewrite Hs. cbn [inst refContainer].
  apply commit_changed; cbn; congruence.
Qed.

(** What the layout effect does get right.  When the measured scrollbar
    width differs from the [scrollbarWidth] state of a component with no
    render pending and is not zero, the render that measures it and the
    render that follows both complete, no further render is pending, and the
    right padding of the container is its left padding minus the new
    scrollbar width. *)
Theorem padding_follows_scrollbar (f : Fiber) (el : Element) :
  settled f ->
  offsetWidth el - clientWidth el <> scrollbarWidth (inst f) ->
  offsetWidth el - clientWidth el <> 0 ->
  exists f1 f2 el2,
    commit (Some el) f = Normal f1 /\
    rerender f1 = Normal f2 /\
    settled f2 /\
    refContainer (inst f2) = Some el2 /\
    stylePaddingRight el2
    = Some (paddingLeft el - inject_Z (offsetWidth el - clientWidth el))%Q.
Proof.
  intros Hs Hw Hnz.
  destruct (renders_after_change f el Hs Hw) as (f1 & H1 & H2).
  apply Z.eqb_neq in Hnz. rewrite Hnz in H2.
  exists f1. eexists. eexists.
  split; [exact H1|]. split; [exact H2|]. repeat split.
Qed.

Lemma padding_follows_scrollbar_witness :
  exists f1 f2 el2,
    commit (Some withScrollbar) fiberMounted = Normal f1 /\
    rerender f1 = Normal f2 /\
    settled f2 /\
    refContainer (inst f2) = Some el2 /\
    stylePaddingRight el2 = Some (24 - inject_Z 15)%Q.
Proof.
  apply (padding_follows_scrollbar fiberMounted withScrollbar).
  - reflexivity.
  - discriminate.
  - discriminate.
Defined.

(** When the new width is zero the same two renders complete and leave the
    container as the browser laid it out, style included. *)
Lemma padding_untouched_without_scrollbar (f : Fiber) (el : Element) :
  settled f ->
  offsetWidth el - clientWidth el <> scrollbarWidth (inst f) ->
  offsetWidth el - clientWidth el = 0 ->
  exists f1 f2,
    commit (Some el) f = Normal f1 /\
    rerender f1 = Normal f2 /\
    refContainer (inst f2) = Some el.
Proof.
  intros Hs Hw Hz.
  destruct (renders_after_change f el Hs Hw) as (f1 & H1 & H2).
  rewrite Hz in H2. cbn in H2.
  exists f1. eexists. split; [exact H1|]. split; [exact H2|]. reflexivity.
Qed.

(** The layout effect dereferences the ref without a guard of its own: with
    a scrollbar width that is not zero and a null ref it raises. *)
Lemma padding_effect_needs_ref (width : Z) :
  width <> 0 -> paddingLayoutEffect width None = Throw TypeError.
Proof.
  intros H. unfold paddingLayoutEffect.
  apply Z.eqb_neq in H. rewrite H. reflexivity.
Qed.

End GalleryEffects.

(** * Properties of the loading pill *)

Module LoadingPillFacts.

Import Gallery LoadingPill.
Local Open Scope N_scope.

Lemma render_same (s : State) :
  pillDeps s = Some (true, true) -> render true true s = s.
Proof.
  unfold render, Hooks.depsChanged. intros ->. reflexivity.
Qed.

Lemma render_stop (l h : bool) (s : State) (d : N) :
  l && h = false -> pillDeps s = Some (true, true) ->
  armed s d \/ shown s d ->
  invariant (render l h s) None.
Proof.
  intros Hlh Hdeps Hs. unfold render, Hooks.depsChanged. rewrite Hdeps.
  assert (E : pillDeps_eqb (true, true) (l, h) = false)
    by (destruct l, h; try discriminate Hlh; reflexivity).
  rewrite E. cbn [negb]. unfold loadingPillEffect. rewrite Hlh.
  cbn [showLoadingPill loop pillDeps pillCleanup].
  split; [destruct l, h; try discriminate Hlh; discriminate|].
  unfold idle. cbn [showLoadingPill loop pillDeps pillCleanup].
  repeat split.
  unfold runCleanup.
  destruct Hs as [(_ & _ & id & dl & Hp & Hc & _) | (_ & _ & Hp)].
  - rewrite Hc. cbn. rewrite Hp. cbn. rewrite Nat.eqb_refl. reflexivity.
  - destruct (pillCleanup s); cbn; rewrite Hp; reflexivity.
Qed.

Lemma render_idle (l h : bool) (s : State) :
  pillDeps s <> Some (true, true) -> idle s ->
  invariant (render l h s) (if l && h then Some 0 else None).
Proof.
  intros Hdeps (Hpill & Hp & Hc). unfold render.
  destruct (Hooks.depsChanged pillDeps_eqb (pillDeps s) (l, h)) eqn:E.
  - unfold runCleanup. rewrite Hc. unfold loadingPillEffect.
    destruct (l && h) eqn:Hlh.
    + apply andb_true_iff in Hlh as [-> ->]. cbn.
      split; [reflexivity|]. left. unfold armed. cbn.
      split; [exact Hpill|]. split; [reflexivity|].
      exists (Timers.nextTimerId (loop s)),
        (Timers.now (loop s) + SHOW_LOADING_PILL_DELAY_MS).
      rewrite Hp. repeat split. apply N.add_0_r.
    + cbn. split; [destruct l, h; try discriminate Hlh; discriminate|].
      unfold idle. cbn. repeat split. exact Hp.
  - unfold Hooks.depsChanged in E.
    destruct (pillDeps s) as [[l0 h0]|] eqn:D; [|discriminate E].
    apply negb_false_iff in E. unfold pillDeps_eqb in E. cbn in E.
    apply andb_true_iff in E as [E1 E2].
    apply Bool.eqb_prop in E1, E2. subst l0 h0.
    destruct (l && h) eqn:Hlh.
    + apply andb_true_iff in Hlh as [-> ->]. contradiction.
    + cbn. split; [rewrite D; exact Hdeps | repeat split; assumption].
Qed.

Lemma elapse_armed (dt d : N) (s : State) :
  pillDeps s = Some (true, true) -> armed s d ->
  invariant (elapse dt s) (Some (d + dt)).
Proof.
  intros Hdeps (Hpill & Hd & id & dl & Hp & Hc & Hdl).
  unfold SHOW_LOADING_PILL_DELAY_MS in *.
  unfold elapse, Timers.elapse. rewrite Hp. cbn [filter map].
  unfold Timers.isDue at 1 2. cbn [Timers.deadline].
  destruct (N.leb_spec dl (Timers.now (loop s) + dt)) as [Hdue|Hnot].
  - cbn. split; [exact Hdeps|]. right. unfold shown. cbn.
    repeat split. unfold SHOW_LOADING_PILL_DELAY_MS. lia.
  - cbn. split; [exact Hdeps|]. left. unfold armed. cbn.
    unfold SHOW_LOADING_PILL_DELAY_MS.
    split; [exact Hpill|]. split; [lia|].
    exists id, dl. repeat split; [exact Hc | lia].
Qed.

Lemma elapse_quiet (dt : N) (s : State) :
  Timers.pending (loop s) = [] ->
  showLoadingPill (elapse dt s) = showLoadingPill s /\
  Timers.pending (loop (elapse dt s)) = [] /\
  pillDeps (elapse dt s) = pillDeps s /\
  pillCleanup (elapse dt s) = pillCleanup s.
Proof.
  intros Hp. unfold elapse, Timers.elapse. rewrite Hp. cbn. repeat split.
Qed.

(** Every step keeps the invariant, with the held time observed along. *)
Lemma step_invariant (s : State) (held : option N) (e : Event) :
  invariant s held -> invariant (step s e) (observe held e).
Proof.
  intros Hinv. destruct e as [l h|dt]; cbn [step observe].
  - destruct held as [d|]; cbn [invariant] in Hinv.
    + destruct Hinv as [Hdeps Hs]. destruct (l && h) eqn:Hlh.
      * apply andb_true_iff in Hlh as [-> ->].
        rewrite (render_same s Hdeps). split; assumption.
      * apply (render_stop l h s d Hlh Hdeps Hs).
    + destruct Hinv as [Hdeps Hs]. apply render_idle; assumption.
  - destruct held as [d|]; cbn [invariant option_map] in *.
    + destruct Hinv as [Hdeps [Ha|(Hpill & Hd & Hp)]].
      * apply elapse_armed; assumption.
      * destruct (elapse_quiet dt s Hp) as (E1 & E2 & E3 & _).
        split; [congruence|]. right. unfold shown.
        rewrite E1, E2. repeat split; try assumption. lia.
    + destruct Hinv as [Hdeps (Hpill & Hp & Hc)].
      destruct (elapse_quiet dt s Hp) as (E1 & E2 & E3 & E4).
      split; [congruence|]. unfold idle. rewrite E1, E2, E4.
      repeat split; assumption.
Qed.

Lemma fold_invariant (tr : list Event) (s : State) (held : option N) :
  invariant s held ->
  invariant (fold_left step tr s) (fold_left observe tr held).
Proof.
  revert s held. induction tr as [|e tr IH]; intros s held Hinv; cbn.
  - exact Hinv.
  - apply IH, step_invariant, Hinv.
Qed.

Lemma run_invariant (tr : list Event) : invariant (run tr) (heldFor tr).
Proof.
  apply fold_invariant. cbn. split; [discriminate | repeat split].
Qed.

(** The pill is shown exactly when loading with more to come has lasted for
    the delay of the timer. *)
Lemma shown_iff_held (tr : list Event) :
  showLoadingPill (run tr) = true <->
  exists d, heldFor tr = Some d /\ SHOW_LOADING_PILL_DELAY_MS <= d.
Proof.
  pose proof (run_invariant tr) as Hinv. split.
  - intros Hshow. destruct (heldFor tr) as [d|]; cbn in Hinv.
    + destruct Hinv as [_ [(Hpill & _) | (_ & Hd & _)]]; [congruence|].
      exists d. split; [reflexivity | exact Hd].
    + destruct Hinv as [_ (Hpill & _)]. congruence.
  - intros (d & Hheld & Hd). rewrite Hheld in Hinv. cbn in Hinv.
    destruct Hinv as [_ [(_ & Hlt & _) | (Hpill & _)]]; [lia | exact Hpill].
Qed.

(** C5, as stated, fails at the boundary: when loading with more to come has
    lasted for exactly 1000 time units, not more, the timer fires and the
    pill is shown. *)
Lemma pill_shown_at_exactly_the_delay :
  showLoadingPill (run [Render true true; Elapse 1000]) = true /\
  heldFor [Render true true; Elapse 1000] = Some 1000 /\
  ~ (1000 < 1000).
Proof.
  split; [reflexivity|]. split; [reflexivity|]. apply N.lt_irrefl.
Qed.

(** C5, amended. After any sequence of renders and passages of time, the
    loading pill is shown only if [isMediaLoading] and [hasMore] have both
    been true, without interruption, for at least 1000 time units; and a
    render in which [isMediaLoading] or [hasMore] is false leaves the pill
    hidden and no timer pending. *)
Theorem pill_only_after_delay_and_reset (tr : list Event) :
  (showLoadingPill (run tr) = true ->
   exists d, heldFor tr = Some d /\ 1000 <= d) /\
  (forall l h : bool, l && h = false ->
   showLoadingPill (run (tr ++ [Render l h])) = false /\
   Timers.pending (loop (run (tr ++ [Render l h]))) = []).
Proof.
  split.
  - intros Hshow. apply shown_iff_held in Hshow. exact Hshow.
  - intros l h Hlh.
    pose proof (run_invariant (tr ++ [Render l h])) as Hinv.
    unfold heldFor in Hinv. rewrite fold_left_app in Hinv.
    cbn [fold_left observe] in Hinv. rewrite Hlh in Hinv.
    destruct Hinv as [_ (Hpill & Hp & _)]. split; assumption.
Qed.

End LoadingPillFacts.

(** * Properties of updateForResizeEvent *)

Module TextResizeFacts.

Import TextResize.

Section Shape.

Variable Element : Type.
Variable width : Element -> Q.
Variable calculateFitTextFontSize : Element -> Q -> Q -> Q.
Variable calculateTextHeight : Element -> Q -> Q.
Variable dataPixels : Q -> Q.
Variable minFontSize : Q.

Lemma isNonZero_false (x : Z) : isNonZero x = false <-> x = 0%Z.
Proof.
  unfold isNonZero. rewrite negb_false_iff. apply Z.eqb_eq.
Qed.

Lemma isNonZero_true (x : Z) : isNonZero x = true <-> x <> 0%Z.
Proof.
  unfold isNonZero. rewrite negb_true_iff. apply Z.eqb_neq.
Qed.

(** C10. [updateForResizeEvent] returns null exactly when both components
    of the direction are zero.  When [direction[1]] is not zero it returns
    an object with the fields [fontSize] and [skipUpdates] and without a
    field [height], whatever [direction[0]] is; when only [direction[0]] is
    not zero it returns an object with a field [height]. *)
Theorem result_shape (element : Element) (dx dy : Z) (newWidth newHeight : Q)
    (delta : option (Q * Q)) :
  (updateForResizeEvent Element width calculateFitTextFontSize
     calculateTextHeight dataPixels minFontSize element (dx, dy) newWidth
     newHeight delta = None <->
   dx = 0%Z /\ dy = 0%Z) /\
  (dy <> 0%Z ->
   exists o,
     updateForResizeEvent Element width calculateFitTextFontSize
     calculateTextHeight dataPixels minFontSize element (dx, dy) newWidth
     newHeight delta = Some o /\
     hasField "fontSize" o = true /\
     hasField "skipUpdates" o = true /\
     hasField "height" o = false) /\
  (dy = 0%Z -> dx <> 0%Z ->
   exists o,
     updateForResizeEvent Element width calculateFitTextFontSize
     calculateTextHeight dataPixels minFontSize element (dx, dy) newWidth
     newHeight delta = Some o /\
     hasField "height" o = true).
Proof.
  unfold updateForResizeEvent. cbn [fst snd].
  destruct (isNonZero dy) eqn:Ey, (isNonZero dx) eqn:Ex;
    try apply isNonZero_true in Ey; try apply isNonZero_false in Ey;
    try apply isNonZero_true in Ex; try apply isNonZero_false in Ex.
  - split; [split; [discriminate | intros [_ H]; contradiction]|].
    split; [|intros H; contradiction].
    intros _. eexists. repeat split.
  - split; [split; [discriminate | intros [_ H]; contradiction]|].
    split; [|intros H; contradiction].
    intros _. eexists. repeat split.
  - split; [split; [discriminate | intros [H _]; contradiction]|].
    split; [intros H; contradiction|].
    intros _ _. eexists. repeat split.
  - split; [split; [intros _; split; assumption | reflexivity]|].
    split; intros; contradiction.
Qed.

End Shape.

Example shrink_below_minimum :
  Scenarios.sampleUpdate 100 (1, 1)%Z 0 8 (Some (-3 # 1, -2 # 1))
  = Some [("fontSize"%string, VNumber 8);
          ("skipUpdates"%string, VBoolean true)].
Proof. reflexivity. Qed.

Example widen_only :
  Scenarios.sampleUpdate 100 (-1, 0)%Z 140 8 None
  = Some [("height"%string, VNumber 140)].
Proof. reflexivity. Qed.

End TextResizeFacts.

(** * More on loadNextPageIfNeeded *)

Module LoadNextPageMore.

Import Gallery Scenarios.

Lemma bottom_iff (el : Element) :
  Qle_bool (inject_Z (scrollHeight el) - scrollTop el)
           (inject_Z (clientHeight el + ROOT_MARGIN)) = true <->
  (inject_Z (scrollHeight el) - scrollTop el
   <= inject_Z (clientHeight el) + 300)%Q.
Proof.
  rewrite Qle_bool_iff. unfold ROOT_MARGIN. rewrite inject_Z_plus.
  reflexivity.
Qed.

Lemma guarded_cases (p : Props) :
  (hasMore p = true /\ isMediaLoaded p = true /\ isMediaLoading p = false) \/
  (forall current, loadNextPageIfNeeded current p = Normal []).
Proof.
  destruct (hasMore p) eqn:Hm, (isMediaLoaded p) eqn:Hd,
    (isMediaLoading p) eqn:Hl;
    try (right; intros current; apply LoadNextPage.guarded_returns;
         rewrite Hm, Hd, Hl; destruct (truthy current); reflexivity).
  left. repeat split.
Qed.

(** The cases in which the embedded function, whose arithmetic on scroll
    offsets is exact, asks for the next page. *)
Lemma request_cases (current : option Element) (p : Props) :
  loadNextPageIfNeeded current p = Normal [setNextPage] <->
  exists el,
    current = Some el /\
    hasMore p = true /\ isMediaLoaded p = true /\ isMediaLoading p = false /\
    ((inject_Z (scrollHeight el) - scrollTop el
      <= inject_Z (clientHeight el) + 300)%Q \/
     clientHeight el = scrollHeight el).
Proof.
  split.
  - intros H. destruct (guarded_cases p) as [(Hm & Hd & Hl) | Hg];
      [|rewrite Hg in H; discriminate H].
    destruct current as [el|]; [|discriminate H].
    exists el. repeat split; try assumption.
    rewrite (LoadNextPage.past_guard el p Hm Hd Hl) in H.
    destruct (Qle_bool _ _) eqn:B.
    + left. apply bottom_iff. exact B.
    + destruct (clientHeight el =? scrollHeight el) eqn:E;
        [|discriminate H].
      right. apply Z.eqb_eq. exact E.
  - intros (el & -> & Hm & Hd & Hl & Hgeo).
    rewrite (LoadNextPage.past_guard el p Hm Hd Hl).
    destruct (Qle_bool _ _) eqn:B; [reflexivity|].
    destruct Hgeo as [Hb | He].
    + apply bottom_iff in Hb. congruence.
    + rewrite He, Z.eqb_refl. reflexivity.
Qed.

(** X3. Scrolling further down never withdraws a request: when the check
    asks for the next page at some scroll offset, it also does at every
    greater vertical offset of the same container. *)
Theorem request_kept_when_scrolling_down (el : Element) (p : Props)
    (x y : Q) :
  (scrollTop el <= y)%Q ->
  loadNextPageIfNeeded (Some el) p = Normal [setNextPage] ->
  loadNextPageIfNeeded (Some (scrollTo x y el)) p = Normal [setNextPage].
Proof.
  intros Hy H. apply request_cases in H.
  destruct H as (el' & E & Hm & Hd & Hl & Hgeo). injection E as <-.
  apply request_cases. exists (scrollTo x y el).
  repeat split; try assumption. cbn.
  destruct Hgeo as [Hb | He]; [left; lra | right; exact He].
Qed.

Lemma request_kept_when_scrolling_down_witness :
  loadNextPageIfNeeded (Some (scrollTo 0 800 nearBottom)) (props false true true)
  = Normal [setNextPage].
Proof.
  apply (request_kept_when_scrolling_down nearBottom (props false true true)).
  - discriminate.
  - reflexivity.
Defined.

End LoadNextPageMore.

(** * The scroll and resize listeners over the life of the component *)

Module ListenerFacts.

Import Gallery ListenerHook.

Lemma Listener_eqb_refl (l : Listener) : Listener_eqb l l = true.
Proof.
  destruct l as [[|] h]; unfold Listener_eqb; cbn; apply Nat.eqb_refl.
Qed.

Lemma removeListener_absent (l : Listener) (ls : list Listener) :
  existsb (Listener_eqb l) ls = false -> removeListener l ls = ls.
Proof.
  unfold removeListener. induction ls as [|x ls IH]; cbn; [reflexivity|].
  intros H. apply orb_false_iff in H as [Hx Hls].
  rewrite Hx. cbn. rewrite (IH Hls). reflexivity.
Qed.

Lemma removeListener_added (l : Listener) (ls : list Listener) :
  existsb (Listener_eqb l) ls = false ->
  removeListener l (addListener l ls) = ls.
Proof.
  intros H. unfold addListener. rewrite H.
  unfold removeListener. rewrite filter_app.
  fold (removeListener l ls). rewrite (removeListener_absent l ls H).
  cbn. rewrite Listener_eqb_refl. cbn. apply app_nil_r.
Qed.

Lemma last_cons (l : list nat) : forall x d, last (x :: l) d = last l x.
Proof.
  induction l as [|a l IH]; intros x d; [reflexivity|].
  change (last (x :: a :: l) d) with (last (a :: l) d).
  rewrite !IH. reflexivity.
Qed.

Lemma last_in (l : list nat) : forall x, In (last l x) (x :: l).
Proof.
  induction l as [|a l IH]; intros x; [left; reflexivity|].
  rewrite last_cons. right. apply IH.
Qed.

(** The state in which [h] is the one handler the component has
    registered on a container [el] and a window that had the listeners
    [ws]. *)
Lemma render_first (el : Element) (ws : list Listener) (h : nat) :
  existsb (Listener_eqb (scroll, h)) (listeners el) = false ->
  existsb (Listener_eqb (resize, h)) ws = false ->
  render h (mountedOn el ws)
  = Normal {| node := Some (withListeners (listeners el ++ [(scroll, h)]) el);
              window := ws ++ [(resize, h)];
              deps := Some h;
              cleanup := removeListeners h |}.
Proof.
  intros Hn Hw. unfold render, mountedOn. cbn.
  unfold addListener. rewrite Hn, Hw. reflexivity.
Qed.

Lemma render_next (el : Element) (ws : list Listener) (h0 h : nat) :
  existsb (Listener_eqb (scroll, h0)) (listeners el) = false ->
  existsb (Listener_eqb (resize, h0)) ws = false ->
  existsb (Listener_eqb (scroll, h)) (listeners el) = false ->
  existsb (Listener_eqb (resize, h)) ws = false ->
  render h {| node := Some (withListeners (listeners el ++ [(scroll, h0)]) el);
              window := ws ++ [(resize, h0)];
              deps := Some h0;
              cleanup := removeListeners h0 |}
  = Normal {| node := Some (withListeners (listeners el ++ [(scroll, h)]) el);
              window := ws ++ [(resize, h)];
              deps := Some h;
              cleanup := removeListeners h |}.
Proof.
  intros Hn0 Hw0 Hn Hw. unfold render, Hooks.depsChanged.
  cbn [deps node window cleanup].
  destruct (Nat.eqb h0 h) eqn:E.
  - apply Nat.eqb_eq in E. subst h. reflexivity.
  - cbn [negb runListenerCleanup listeners withListeners].
    pose proof (removeListener_added (scroll, h0) (listeners el) Hn0) as R1.
    pose proof (removeListener_added (resize, h0) ws Hw0) as R2.
    unfold addListener in R1, R2. rewrite Hn0 in R1. rewrite Hw0 in R2.
    unfold listenersEffect, addListener. unfold Listener in *.
    rewrite R1, R2. cbn [listeners withListeners].
    rewrite Hn, Hw. reflexivity.
Qed.

Lemma renders_next (el : Element) (ws : list Listener) (rest : list nat) :
  forall h0,
  foreignTo scroll (h0 :: rest) (listeners el) ->
  foreignTo resize (h0 :: rest) ws ->
  renders rest
    {| node := Some (withListeners (listeners el ++ [(scroll, h0)]) el);
       window := ws ++ [(resize, h0)];
       deps := Some h0;
       cleanup := removeListeners h0 |}
  = Normal
      {| node :=
           Some (withListeners (listeners el ++ [(scroll, last rest h0)]) el);
         window := ws ++ [(resize, last rest h0)];
         deps := Some (last rest h0);
         cleanup := removeListeners (last rest h0) |}.
Proof.
  induction rest as [|h rest IH]; intros h0 Fn Fw; [reflexivity|].
  cbn [renders].
  rewrite render_next;
    try (apply Fn; cbn; auto); try (apply Fw; cbn; auto).
  cbn [Js.bind]. rewrite (last_cons rest h h0). apply IH.
  - intros k Hk. apply Fn. cbn in *. tauto.
  - intros k Hk. apply Fw. cbn in *. tauto.
Qed.

(** X4. When the handler is not registered yet, the scroll/resize effect
    followed by the cleanup it returns leaves the container and the
    listeners of the window exactly as they were. *)
Theorem effect_then_cleanup_restores (el : Element) (ws : list Listener)
    (h : nat) :
  existsb (Listener_eqb (scroll, h)) (listeners el) = false ->
  existsb (Listener_eqb (resize, h)) ws = false ->
  exists node1 window1 c,
    listenersEffect (Some el) ws h = Normal (node1, window1, c) /\
    runListenerCleanup c node1 window1 = (Some el, ws).
Proof.
  intros Hn Hw. do 3 eexists. split; [reflexivity|].
  cbn [runListenerCleanup listeners withListeners].
  rewrite (removeListener_added _ _ Hn), (removeListener_added _ _ Hw).
  destruct el; reflexivity.
Qed.

Lemma effect_then_cleanup_restores_witness :
  exists node1 window1 c,
    listenersEffect (Some MoreScenarios.listening)
      MoreScenarios.foreignListeners 3%nat
    = Normal (node1, window1, c) /\
    runListenerCleanup c node1 window1
    = (Some MoreScenarios.listening, MoreScenarios.foreignListeners).
Proof.
  apply (effect_then_cleanup_restores MoreScenarios.listening
           MoreScenarios.foreignListeners 3%nat); reflexivity.
Defined.

(** X5. Listeners do not pile up: after any number of renders, each with
    its own debounced callback, the container and the window carry the
    listeners they had before the mount and, after them, the callback of the
    last render only; unmounting then removes that one too.  The callbacks
    are assumed not to be registered by anyone else. *)
Theorem only_latest_handler_registered (el : Element) (ws : list Listener)
    (h : nat) (rest : list nat) :
  foreignTo scroll (h :: rest) (listeners el) ->
  foreignTo resize (h :: rest) ws ->
  exists s,
    renders (h :: rest) (mountedOn el ws) = Normal s /\
    node s = Some (withListeners (listeners el ++ [(scroll, last rest h)]) el) /\
    window s = ws ++ [(resize, last rest h)] /\
    node (unmount s) = Some el /\
    window (unmount s) = ws.
Proof.
  intros Fn Fw. eexists. split.
  - cbn [renders]. rewrite render_first;
      [|apply Fn; cbn; auto | apply Fw; cbn; auto].
    cbn [Js.bind]. apply renders_next; assumption.
  - pose proof (Fn _ (last_in rest h)) as Hn.
    pose proof (Fw _ (last_in rest h)) as Hw.
    split; [reflexivity|]. split; [reflexivity|].
    unfold unmount. cbn [cleanup node window runListenerCleanup listeners
                         withListeners].
    pose proof (removeListener_added _ _ Hn) as R1.
    pose proof (removeListener_added _ _ Hw) as R2.
    unfold addListener in R1, R2. rewrite Hn in R1. rewrite Hw in R2.
    unfold Listener in *. rewrite R1, R2.
    destruct el; split; reflexivity.
Qed.

Lemma only_latest_handler_registered_witness :
  exists s,
    renders [3; 4; 4; 5]%nat
      (mountedOn MoreScenarios.listening MoreScenarios.foreignListeners)
    = Normal s /\
    node s
    = Some (withListeners (MoreScenarios.foreignListeners ++ [(scroll, 5%nat)])
              MoreScenarios.listening) /\
    window s = MoreScenarios.foreignListeners ++ [(resize, 5%nat)] /\
    node (unmount s) = Some MoreScenarios.listening /\
    window (unmount s) = MoreScenarios.foreignListeners.
Proof.
  apply (only_latest_handler_registered MoreScenarios.listening
           MoreScenarios.foreignListeners 3%nat [4; 4; 5]%nat).
  - intros k Hk. cbn in Hk.
    destruct Hk as [<-|[<-|[<-|[<-|[]]]]]; reflexivity.
  - intros k Hk. cbn in Hk.
    destruct Hk as [<-|[<-|[<-|[<-|[]]]]]; reflexivity.
Defined.

End ListenerFacts.

(** * More on the padding compensation *)

Module PaddingMore.

Import Gallery.

(** X6. Mounting: the first render and the render that follows both
    complete and leave no render pending; if the container has a scrollbar
    its right padding then is its left padding minus the scrollbar width,
    and if it has none the container is left as React handed it over. *)
Theorem mount_compensates (el : Element) :
  exists f1 f2,
    commit (Some el) unmounted = Normal f1 /\
    rerender f1 = Normal f2 /\
    settled f2 /\
    (offsetWidth el - clientWidth el <> 0 ->
     exists el2,
       refContainer (inst f2) = Some el2 /\
       stylePaddingRight el2
       = Some (paddingLeft el - inject_Z (offsetWidth el - clientWidth el))%Q) /\
    (offsetWidth el - clientWidth el = 0 -> refContainer (inst f2) = Some el).
Proof.
  exists {| inst := {| refContainer := Some el;
                       scrollbarWidth := offsetWidth el - clientWidth el |};
            layoutDeps := Some 0 |}.
  destruct (Z.eq_dec (offsetWidth el - clientWidth el) 0) as [Hz|Hnz].
  - eexists. split; [reflexivity|]. split.
    + unfold rerender. cbn [inst refContainer].
      apply GalleryEffects.commit_settled. unfold settled. cbn.
      rewrite Hz. reflexivity.
    + cbn. unfold settled. cbn. rewrite Hz.
      split; [reflexivity|]. split; [intros H; contradiction|].
      intros _. reflexivity.
  - exists {| inst :=
                {| refContainer :=
                     Some (setStylePaddingRight
                             (paddingLeft el
                              - inject_Z (offsetWidth el - clientWidth el)) el);
                   scrollbarWidth := offsetWidth el - clientWidth el |};
              layoutDeps := Some (offsetWidth el - clientWidth el) |}.
    split; [reflexivity|]. split.
    + unfold rerender, commit, Hooks.depsChanged, paddingLayoutEffect.
      cbn [inst refContainer scrollbarWidth layoutDeps refCallbackContainer].
      assert (E1 : (0 =? offsetWidth el - clientWidth el) = false)
        by (apply Z.eqb_neq; congruence).
      assert (E2 : (offsetWidth el - clientWidth el =? 0) = false)
        by (apply Z.eqb_neq; congruence).
      rewrite E1, E2. reflexivity.
    + split; [reflexivity|]. split.
      * intros _. eexists. split; reflexivity.
      * intros H. contradiction.
Qed.

Lemma settled_render_is_identity (f : Fiber) (el : Element) :
  settled f ->
  refContainer (inst f) = Some el ->
  offsetWidth el - clientWidth el = scrollbarWidth (inst f) ->
  rerender f = Normal f.
Proof.
  intros Hs Href Hw. unfold rerender. rewrite Href.
  rewrite (GalleryEffects.commit_settled f el Hs). rewrite Hw.
  destruct f as [[r w] d]. cbn in *. subst r. reflexivity.
Qed.

(** X7. The renders that a change of the scrollbar width sets off come to
    an end: from a component with no render pending, the render that
    measures the new width and the render that follows complete, and every
    render after them leaves the component, its container included, as it
    is, although each of them calls [setScrollbarWidth] again. *)
Theorem renders_converge (f : Fiber) (el : Element) :
  settled f ->
  offsetWidth el - clientWidth el <> scrollbarWidth (inst f) ->
  exists f1 f2,
    commit (Some el) f = Normal f1 /\
    rerender f1 = Normal f2 /\
    scrollbarWidth (inst f2) = offsetWidth el - clientWidth el /\
    rerender f2 = Normal f2.
Proof.
  intros Hs Hw.
  destruct (GalleryEffects.renders_after_change f el Hs Hw) as (f1 & H1 & H2).
  exists f1. eexists. split; [exact H1|]. split; [exact H2|].
  split; [reflexivity|].
  eapply settled_render_is_identity.
  - reflexivity.
  - reflexivity.
  - cbn [inst scrollbarWidth].
    destruct (offsetWidth el - clientWidth el =? 0); reflexivity.
Qed.

Lemma renders_converge_witness :
  exists f1 f2,
    commit (Some Scenarios.withScrollbar) Scenarios.fiberMounted = Normal f1 /\
    rerender f1 = Normal f2 /\
    scrollbarWidth (inst f2) = 15 /\
    rerender f2 = Normal f2.
Proof.
  apply (renders_converge Scenarios.fiberMounted Scenarios.withScrollbar).
  - reflexivity.
  - discriminate.
Defined.

End PaddingMore.

(** * More on the loading pill *)

Module LoadingPillMore.

Import Gallery LoadingPill.
Local Open Scope N_scope.

(** X8. When [isMediaLoading] and [hasMore] have both been true without
    interruption for at least 1000 time units, the loading pill is shown. *)
Theorem pill_shown_once_delay_passed (tr : list Event) (d : N) :
  heldFor tr = Some d -> 1000 <= d -> showLoadingPill (run tr) = true.
Proof.
  intros Hheld Hd. apply LoadingPillFacts.shown_iff_held.
  exists d. split; assumption.
Qed.

Lemma pill_shown_once_delay_passed_witness :
  showLoadingPill
    (run [Render true true; Elapse 400; Render true true; Elapse 700]) = true.
Proof.
  apply (pill_shown_once_delay_passed
           [Render true true; Elapse 400; Render true true; Elapse 700] 1100).
  - reflexivity.
  - discriminate.
Defined.

(** X9. The component never has more than one timer pending, and it has
    one exactly while [isMediaLoading] and [hasMore] have both been true for
    less than 1000 time units. *)
Theorem at_most_one_timer (tr : list Event) :
  (List.length (Timers.pending (loop (run tr))) <= 1)%nat /\
  (Timers.pending (loop (run tr)) <> [] <->
   exists d, heldFor tr = Some d /\ d < 1000).
Proof.
  pose proof (LoadingPillFacts.run_invariant tr) as Hinv.
  destruct (heldFor tr) as [d|]; cbn [invariant] in Hinv.
  - destruct Hinv
      as [_ [(_ & Hlt & id & dl & Hp & _) | (_ & Hge & Hp)]].
    + rewrite Hp. split; [apply Nat.le_refl|]. split.
      * intros _. exists d. split; [reflexivity | exact Hlt].
      * intros _. discriminate.
    + rewrite Hp. split; [apply Nat.le_0_1|]. split.
      * intros H. contradiction H. reflexivity.
      * intros (d' & E & Hlt). injection E as <-.
        unfold SHOW_LOADING_PILL_DELAY_MS in Hge. lia.
  - destruct Hinv as [_ (_ & Hp & _)]. rewrite Hp.
    split; [apply Nat.le_0_1|]. split.
    + intros H. contradiction H. reflexivity.
    + intros (d' & E & _). discriminate E.
Qed.

(** X10. Unmounting leaves no timer behind: after the cleanup that React
    calls on unmount nothing is pending, and however much time passes the
    pill state stays what it was. *)
Theorem unmount_clears_timer (tr : list Event) (dt : N) :
  Timers.pending (loop (Lifecycle.unmountPill (run tr))) = [] /\
  showLoadingPill (elapse dt (Lifecycle.unmountPill (run tr)))
  = showLoadingPill (run tr).
Proof.
  pose proof (LoadingPillFacts.run_invariant tr) as Hinv.
  assert (H : Timers.pending (loop (Lifecycle.unmountPill (run tr))) = [] /\
              showLoadingPill (Lifecycle.unmountPill (run tr))
              = showLoadingPill (run tr)).
  { unfold Lifecycle.unmountPill, runCleanup.
    destruct (heldFor tr) as [d|]; cbn [invariant] in Hinv.
    - destruct Hinv
        as [_ [(_ & _ & id & dl & Hp & Hc & _) | (_ & _ & Hp)]].
      + rewrite Hc. cbn. rewrite Hp. cbn. rewrite Nat.eqb_refl.
        split; reflexivity.
      + destruct (pillCleanup (run tr)); cbn; rewrite Hp; split; reflexivity.
    - destruct Hinv as [_ (_ & Hp & Hc)]. rewrite Hc. split; [exact Hp|].
      reflexivity. }
  destruct H as [Hp Hpill]. split; [exact Hp|].
  destruct (LoadingPillFacts.elapse_quiet dt _ Hp) as (E & _).
  rewrite E. exact Hpill.
Qed.

End LoadingPillMore.

(** * The check that follows a render *)

Module SettleCheckFacts.

Import Gallery SettleCheck.
Local Open Scope N_scope.

Lemma callsOf_short (current : option Element) (p : Props) :
  (List.length (callsOf current p) <= 1)%nat.
Proof.
  unfold callsOf.
  destruct (LoadNextPageMore.guarded_cases p) as [(Hm & Hd & Hl) | Hg].
  - destruct current as [el|].
    + rewrite (LoadNextPage.past_guard el p Hm Hd Hl).
      destruct (Qle_bool _ _); [|destruct (_ =? _)%Z]; cbn; lia.
    + cbn. apply Nat.le_0_1.
  - rewrite Hg. cbn. apply Nat.le_0_1.
Qed.

Lemma runCallback_requests (s : State) (cb : Callback) :
  loop (runCallback s cb) = loop s /\
  node (runCallback s cb) = node s /\
  exists p, cb = loadNextPageIfNeededOf p /\
            requests (runCallback s cb) = requests s ++ callsOf (node s) p.
Proof.
  destruct cb as [p]. unfold runCallback, callsOf.
  destruct (loadNextPageIfNeeded (node s) p) eqn:E; cbn;
    repeat split; exists p; (split; [reflexivity|]); rewrite E;
    [reflexivity | symmetry; apply app_nil_r].
Qed.

Lemma fold_runCallback (cbs : list Callback) :
  forall s,
    loop (fold_left runCallback cbs s) = loop s /\
    (List.length (requests (fold_left runCallback cbs s))
     <= List.length (requests s) + List.length cbs)%nat.
Proof.
  induction cbs as [|cb cbs IH]; intros s; cbn [fold_left].
  - split; [reflexivity|]. cbn. lia.
  - destruct (IH (runCallback s cb)) as [Hl Hr].
    destruct (runCallback_requests s cb) as (El & _ & p & _ & Er).
    split; [congruence|].
    rewrite Er, length_app in Hr.
    pose proof (callsOf_short (node s) p). cbn [List.length]. lia.
Qed.

(** The requests made and the checks still waiting, together. *)
Lemma step_budget (s : State) (e : Event) :
  (List.length (requests (step s e))
   + List.length (Timers.pending (loop (step s e)))
   <= List.length (requests s) + List.length (Timers.pending (loop s))
      + (if isRender e then 1 else 0))%nat.
Proof.
  destruct e as [p f|dt|c]; cbn [step isRender].
  - unfold render. destruct (Hooks.depsChanged _ _ _); [|lia].
    cbn. rewrite length_app. cbn. lia.
  - unfold elapse, Timers.elapse.
    match goal with
    | |- context [fold_left runCallback ?cbs ?s0] =>
        destruct (fold_runCallback cbs s0) as [Hl Hr]; rewrite Hl
    end.
    cbn [loop requests Timers.pending] in *.
    rewrite length_map in Hr.
    pose proof (filter_length
                  (Timers.isDue (Timers.now (loop s) + dt))
                  (Timers.pending (loop s))) as Hf.
    lia.
  - cbn. lia.
Qed.

Lemma fold_budget (tr : list Event) :
  forall s,
    (List.length (requests (fold_left step tr s))
     + List.length (Timers.pending (loop (fold_left step tr s)))
     <= List.length (requests s) + List.length (Timers.pending (loop s))
        + List.length (filter isRender tr))%nat.
Proof.
  induction tr as [|e tr IH]; intros s; cbn [fold_left filter].
  - cbn. lia.
  - pose proof (IH (step s e)) as H1. pose proof (step_budget s e) as H2.
    destruct (isRender e); cbn [List.length]; lia.
Qed.

(** X11. However renders, layout changes and waits follow one another, the
    checks that follow renders call [setNextPage] at most once per render:
    the number of requests never exceeds the number of renders so far. *)
Theorem requests_bounded_by_renders (tr : list Event) :
  (List.length (requests (run tr)) <= List.length (filter isRender tr))%nat.
Proof.
  pose proof (fold_budget tr initial) as H. unfold run. cbn in H. lia.
Qed.

(** X12. A later render does not cancel the check that an earlier render
    started: when a render starts a check and another render, with whatever
    props, comes less than 200 time units later, the first check still runs
    200 units after its own render and decides on the props of its own
    render. *)
Theorem earlier_check_survives_render (s : State) (p p' : Props)
    (f f' : nat) (dt1 dt2 : N) :
  Timers.pending (loop s) = [] ->
  Hooks.depsChanged CallbackDeps_eqb (deps s) (callbackDeps p f) = true ->
  dt1 < 200 -> dt2 < 200 -> 200 <= dt1 + dt2 ->
  requests (elapse dt2 (render p' f' (elapse dt1 (render p f s))))
  = requests s ++ callsOf (node s) p.
Proof.
  intros Hp Hch H1 H2 H12.
  unfold render at 2. rewrite Hch.
  unfold elapse at 2, Timers.elapse, Timers.setTimeout.
  cbn [loop snd Timers.pending Timers.now Timers.nextTimerId node deps requests].
  rewrite Hp. cbn [app filter map Timers.isDue Timers.deadline].
  assert (E1 : (Timers.now (loop s) + 200 <=? Timers.now (loop s) + dt1)
               = false) by (apply N.leb_gt; lia).
  unfold Timers.isDue. cbn [Timers.deadline]. rewrite E1.
  cbn [negb map fold_left].
  unfold render. cbn [deps loop node requests].
  assert (E2 : (Timers.now (loop s) + 200
                <=? Timers.now (loop s) + dt1 + dt2) = true)
    by (apply N.leb_le; lia).
  assert (E3 : (Timers.now (loop s) + dt1 + 200
                <=? Timers.now (loop s) + dt1 + dt2) = false)
    by (apply N.leb_gt; lia).
  destruct (Hooks.depsChanged CallbackDeps_eqb (Some (callbackDeps p f))
              (callbackDeps p' f'));
    unfold elapse, Timers.elapse, Timers.setTimeout;
    cbn [loop snd Timers.pending Timers.now Timers.nextTimerId node deps
         requests app filter map];
    unfold Timers.isDue; cbn [Timers.deadline]; rewrite E2;
    cbn [negb map fold_left app filter Timers.deadline Timers.callback];
    try rewrite E3; cbn [negb map fold_left Timers.callback];
    unfold runCallback, callsOf; cbn [node requests];
    destruct (loadNextPageIfNeeded (node s) p); cbn;
    try reflexivity; symmetry; apply app_nil_r.
Qed.

Lemma earlier_check_survives_render_witness :
  requests
    (elapse 150
       (render (Scenarios.props true true true) 0
          (elapse 100
             (render (Scenarios.props false true true) 0
                (layout (Some Scenarios.nearBottom) initial)))))
  = [setNextPage].
Proof.
  apply (earlier_check_survives_render
           (layout (Some Scenarios.nearBottom) initial)
           (Scenarios.props false true true) (Scenarios.props true true true)
           O O 100 150); try reflexivity.
  discriminate.
Defined.

End SettleCheckFacts.

(** * What the component renders *)

Module GalleryViewFacts.

Import Gallery GalleryView.

Section Rendering.

Variable Resource : Type.
Variable Node : Type.
Variable PROVIDERS : string -> option (Provider Node).

Lemma attributionOf_cases (providerType : string) :
  (providerType = "local"%string /\
   attributionOf Node PROVIDERS providerType = Normal None) \/
  (providerType <> "local"%string /\
   PROVIDERS providerType = None /\
   attributionOf Node PROVIDERS providerType = Throw TypeError) \/
  (providerType <> "local"%string /\
   exists pr,
     PROVIDERS providerType = Some pr /\
     attributionOf Node PROVIDERS providerType
     = Normal (option_map (fun render => render tt) (attributionComponent pr))).
Proof.
  unfold attributionOf.
  destruct (String.eqb_spec providerType "local") as [E|E]; cbn [negb].
  - left. split; [exact E | reflexivity].
  - right. destruct (PROVIDERS providerType) as [pr|] eqn:P.
    + right. split; [exact E|]. exists pr. split; [reflexivity|].
      cbn. destruct (attributionComponent pr); reflexivity.
    + left. split; [exact E|]. split; reflexivity.
Qed.

Lemma view_bind (providerType : string) (resources : list Resource)
    (isMediaLoaded showLoadingPill : bool) (a : option Node) :
  attributionOf Node PROVIDERS providerType = Normal a ->
  view Resource Node PROVIDERS providerType resources isMediaLoaded
    showLoadingPill
  = Normal
      {| body :=
           if isMediaLoaded && Nat.eqb (List.length resources) 0
           then MediaGalleryMessage
           else MediaGalleryOf providerType resources;
         loadingPill := showLoadingPill;
         attributionShown := if negb showLoadingPill then a else None |}.
Proof.
  intros H. unfold view. rewrite H. reflexivity.
Qed.

(** X13. Rendering completes exactly when the provider is ['local'] or the
    lookup [PROVIDERS[providerType]] finds a value; when the lookup gives
    [undefined] for a provider other than ['local'], the render raises a
    TypeError, also while the pill would hide the attribution. *)
Theorem view_completes_iff (providerType : string)
    (resources : list Resource) (isMediaLoaded showLoadingPill : bool) :
  (exists v,
     view Resource Node PROVIDERS providerType resources isMediaLoaded
       showLoadingPill = Normal v) <->
  providerType = "local"%string \/ PROVIDERS providerType <> None.
Proof.
  destruct (attributionOf_cases providerType)
    as [(E & H) | [(E & P & H) | (E & pr & P & H)]].
  - split; [intros _; left; exact E|]. intros _.
    eexists. apply view_bind. exact H.
  - split.
    + intros (v & Hv). unfold view in Hv. rewrite H in Hv. discriminate Hv.
    + intros [E' | P']; contradiction.
  - split; [intros _; right; congruence|]. intros _.
    eexists. apply view_bind. exact H.
Qed.

(** X14. The attribution is rendered exactly when the loading pill is
    hidden, the provider is not ['local'] and its entry in the provider
    table has an attribution component; what is rendered then is what that
    component returns. *)
Theorem attribution_shown_iff (providerType : string)
    (resources : list Resource) (isMediaLoaded showLoadingPill : bool)
    (v : View Resource Node) (n : Node) :
  view Resource Node PROVIDERS providerType resources isMediaLoaded
    showLoadingPill = Normal v ->
  (attributionShown v = Some n <->
   showLoadingPill = false /\
   providerType <> "local"%string /\
   exists pr render,
     PROVIDERS providerType = Some pr /\
     attributionComponent pr = Some render /\
     n = render tt).
Proof.
  intros Hv.
  destruct (attributionOf_cases providerType)
    as [(E & H) | [(E & P & H) | (E & pr & P & H)]].
  - rewrite (view_bind _ resources isMediaLoaded showLoadingPill _ H) in Hv.
    injection Hv as <-. cbn. split.
    + destruct showLoadingPill; discriminate.
    + intros (_ & E' & _). contradiction.
  - unfold view in Hv. rewrite H in Hv. discriminate Hv.
  - rewrite (view_bind _ resources isMediaLoaded showLoadingPill _ H) in Hv.
    injection Hv as <-. cbn. split.
    + destruct showLoadingPill; cbn; [discriminate|].
      destruct (attributionComponent pr) as [render|] eqn:C; cbn;
        [|discriminate].
      intros Hn. injection Hn as <-.
      split; [reflexivity|]. split; [exact E|].
      exists pr, render. repeat split; assumption.
    + intros (-> & _ & pr' & render & P' & C & ->).
      rewrite P in P'. injection P' as <-. rewrite C. reflexivity.
Qed.

(** X15. The message 'No media found' takes the place of the gallery
    exactly when the media has loaded and there are no resources; before
    the media has loaded an empty gallery is rendered instead. *)
Theorem message_iff (providerType : string) (resources : list Resource)
    (isMediaLoaded showLoadingPill : bool) (v : View Resource Node) :
  view Resource Node PROVIDERS providerType resources isMediaLoaded
    showLoadingPill = Normal v ->
  (body v = MediaGalleryMessage <-> isMediaLoaded = true /\ resources = []) /\
  (body v <> MediaGalleryMessage ->
   body v = MediaGalleryOf providerType resources).
Proof.
  intros Hv. unfold view in Hv.
  destruct (attributionOf Node PROVIDERS providerType) as [a|e];
    [|discriminate Hv].
  cbn in Hv. injection Hv as <-. cbn [body].
  destruct isMediaLoaded, resources as [|r rs]; cbn; split;
    try (split; [discriminate | intros [H1 H2]; discriminate]);
    try (intros _; reflexivity).
  - split; [intros _; split; reflexivity | reflexivity].
  - intros H. contradiction H. reflexivity.
Qed.

(** X16. The loading pill and the attribution are never rendered together,
    and the pill is rendered exactly when [isMediaLoading] and [hasMore]
    have both been true for at least 1000 time units: the view of the state
    reached by any sequence of renders and waits. *)
Theorem pill_replaces_attribution (providerType : string)
    (resources : list Resource) (isMediaLoaded : bool)
    (tr : list LoadingPill.Event) (v : View Resource Node) :
  view Resource Node PROVIDERS providerType resources isMediaLoaded
    (LoadingPill.showLoadingPill (LoadingPill.run tr)) = Normal v ->
  (loadingPill v = true <->
   exists d, LoadingPill.heldFor tr = Some d /\ (1000 <= d)%N) /\
  (loadingPill v = true -> attributionShown v = None).
Proof.
  intros Hv. unfold view in Hv.
  destruct (attributionOf Node PROVIDERS providerType) as [a|e];
    [|discriminate Hv].
  cbn in Hv. injection Hv as <-. cbn [loadingPill attributionShown].
  split; [apply LoadingPillFacts.shown_iff_held|].
  intros ->. reflexivity.
Qed.

End Rendering.

Lemma attribution_shown_iff_witness :
  attributionShown (MoreScenarios.unsplashView false) = Some 1%nat <->
  false = false /\
  "unsplash"%string <> "local"%string /\
  exists pr render,
    MoreScenarios.oneProvider "unsplash" = Some pr /\
    attributionComponent pr = Some render /\
    1%nat = render tt.
Proof.
  apply (attribution_shown_iff nat nat MoreScenarios.oneProvider "unsplash" []
           false false (MoreScenarios.unsplashView false)).
  reflexivity.
Defined.

Lemma message_iff_witness :
  (body MoreScenarios.emptyLocalView = MediaGalleryMessage <->
   true = true /\ @nil nat = []) /\
  (body MoreScenarios.emptyLocalView <> MediaGalleryMessage ->
   body MoreScenarios.emptyLocalView = MediaGalleryOf "local" []).
Proof.
  apply (message_iff nat nat MoreScenarios.oneProvider "local" [] true false
           MoreScenarios.emptyLocalView).
  reflexivity.
Defined.

Lemma pill_replaces_attribution_witness :
  (loadingPill (MoreScenarios.unsplashView true) = true <->
   exists d,
     LoadingPill.heldFor [LoadingPill.Render true true; LoadingPill.Elapse 1500]
     = Some d /\ (1000 <= d)%N) /\
  (loadingPill (MoreScenarios.unsplashView true) = true ->
   attributionShown (MoreScenarios.unsplashView true) = None).
Proof.
  apply (pill_replaces_attribution nat nat MoreScenarios.oneProvider
           "unsplash" [] false
           [LoadingPill.Render true true; LoadingPill.Elapse 1500]
           (MoreScenarios.unsplashView true)).
  reflexivity.
Defined.

End GalleryViewFacts.

(** * More on updateForResizeEvent *)

Module TextResizeMore.

Import TextResize.
Local Open Scope Q_scope.

Section Updates.

Variable Element : Type.
Variable width : Element -> Q.
Variable calculateFitTextFontSize : Element -> Q -> Q -> Q.
Variable calculateTextHeight : Element -> Q -> Q.
Variable dataPixels : Q -> Q.
Variable minFontSize : Q.

Lemma below_iff (a b : Q) : negb (Qle_bool a b) = true <-> (b < a)%Q.
Proof.
  rewrite negb_true_iff. split.
  - intros H. apply Qnot_le_lt. intros Hle.
    apply Qle_bool_iff in Hle. congruence.
  - intros H. destruct (Qle_bool a b) eqn:E; [|reflexivity].
    apply Qle_bool_iff in E. apply Qlt_not_le in H. contradiction.
Qed.

Lemma sizing_down_iff (delta : option (Q * Q)) :
  negb match delta with
       | Some d => negb (Qle_bool (fst d + snd d) 0)
       | None => true
       end = true <->
  exists d, delta = Some d /\ (fst d + snd d <= 0)%Q.
Proof.
  destruct delta as [d|]; cbn.
  - rewrite negb_involutive, Qle_bool_iff. split.
    + intros H. exists d. split; [reflexivity | exact H].
    + intros (d' & E & H). injection E as <-. exact H.
  - split; [discriminate | intros (d' & E & _); discriminate E].
Qed.

(** X17. On a resize that changes the height, the update carries the font
    size in data pixels, and [skipUpdates] is true exactly when a delta is
    given whose two components sum to at most zero (the element is not being
    sized up) and that font size is below [resizeRules.minFontSize]. *)
Theorem skip_updates_iff (element : Element) (dx dy : Z)
    (newWidth newHeight : Q) (delta : option (Q * Q)) :
  dy <> 0%Z ->
  exists o fs b,
    updateForResizeEvent Element width calculateFitTextFontSize
      calculateTextHeight dataPixels minFontSize element (dx, dy) newWidth
      newHeight delta = Some o /\
    Lifecycle.getField "fontSize" o = Some (VNumber fs) /\
    Lifecycle.getField "skipUpdates" o = Some (VBoolean b) /\
    (b = true <->
     (exists d, delta = Some d /\ (fst d + snd d <= 0)%Q) /\
     (fs < minFontSize)%Q).
Proof.
  intros Hdy. apply TextResizeFacts.isNonZero_true in Hdy.
  unfold updateForResizeEvent. cbn [fst snd]. rewrite Hdy.
  eexists. eexists. eexists. split; [reflexivity|].
  split; [reflexivity|]. split; [reflexivity|].
  rewrite andb_true_iff, sizing_down_iff, below_iff. reflexivity.
Qed.

(** X18. On a resize that changes the height, a new width of zero stands
    for the current width of the element: the update is the one for
    [element.width]. *)
Theorem zero_width_falls_back (element : Element) (dx dy : Z)
    (newWidth newHeight : Q) (delta : option (Q * Q)) :
  dy <> 0%Z -> (newWidth == 0)%Q ->
  updateForResizeEvent Element width calculateFitTextFontSize
    calculateTextHeight dataPixels minFontSize element (dx, dy) newWidth
    newHeight delta
  = updateForResizeEvent Element width calculateFitTextFontSize
      calculateTextHeight dataPixels minFontSize element (dx, dy)
      (width element) newHeight delta.
Proof.
  intros Hdy Hw. apply TextResizeFacts.isNonZero_true in Hdy.
  unfold updateForResizeEvent. cbn [fst snd]. rewrite Hdy.
  apply Qeq_bool_iff in Hw. rewrite Hw.
  destruct (Qeq_bool (width element) 0); reflexivity.
Qed.

(** X19. The direction only matters through which of its components are
    zero: two directions with the same zero components give the same
    update. *)
Theorem direction_only_through_zeroes (element : Element)
    (dx dy dx' dy' : Z) (newWidth newHeight : Q) (delta : option (Q * Q)) :
  (dx = 0%Z <-> dx' = 0%Z) -> (dy = 0%Z <-> dy' = 0%Z) ->
  updateForResizeEvent Element width calculateFitTextFontSize
    calculateTextHeight dataPixels minFontSize element (dx, dy) newWidth
    newHeight delta
  = updateForResizeEvent Element width calculateFitTextFontSize
      calculateTextHeight dataPixels minFontSize element (dx', dy') newWidth
      newHeight delta.
Proof.
  intros Hx Hy.
  assert (Ex : isNonZero dx = isNonZero dx').
  { unfold isNonZero. f_equal.
    destruct (Z.eqb_spec dx 0), (Z.eqb_spec dx' 0); tauto. }
  assert (Ey : isNonZero dy = isNonZero dy').
  { unfold isNonZero. f_equal.
    destruct (Z.eqb_spec dy 0), (Z.eqb_spec dy' 0); tauto. }
  unfold updateForResizeEvent. cbn [fst snd]. rewrite Ex, Ey. reflexivity.
Qed.

(** X20. A resize of the width alone recomputes the height from the new
    width only: the new height and the delta passed along are ignored, so
    such a resize never asks to skip updates. *)
Theorem width_only_ignores_height_and_delta (element : Element) (dx : Z)
    (newWidth newHeight newHeight' : Q) (delta delta' : option (Q * Q)) :
  dx <> 0%Z ->
  updateForResizeEvent Element width calculateFitTextFontSize
    calculateTextHeight dataPixels minFontSize element (dx, 0%Z) newWidth
    newHeight delta
  = updateForResizeEvent Element width calculateFitTextFontSize
      calculateTextHeight dataPixels minFontSize element (dx, 0%Z) newWidth
      newHeight' delta' /\
  exists o,
    updateForResizeEvent Element width calculateFitTextFontSize
      calculateTextHeight dataPixels minFontSize element (dx, 0%Z) newWidth
      newHeight delta = Some o /\
    Lifecycle.getField "skipUpdates" o = None.
Proof.
  intros Hdx. apply TextResizeFacts.isNonZero_true in Hdx.
  unfold updateForResizeEvent. cbn [fst snd]. rewrite Hdx. cbn.
  split; [reflexivity|]. eexists. split; reflexivity.
Qed.

End Updates.

Lemma skip_updates_iff_witness :
  exists o fs b,
    Scenarios.sampleUpdate 100 (1, 1)%Z 0 8 (Some (-3 # 1, -2 # 1)) = Some o /\
    Lifecycle.getField "fontSize" o = Some (VNumber fs) /\
    Lifecycle.getField "skipUpdates" o = Some (VBoolean b) /\
    (b = true <->
     (exists d, Some (-3 # 1, -2 # 1) = Some d /\ (fst d + snd d <= 0)%Q) /\
     (fs < 12)%Q).
Proof.
  apply (skip_updates_iff Q (fun w => w) (fun _ _ h => h) (fun _ w => w)
           (fun q => q) 12 100 1%Z 1%Z 0 8 (Some (-3 # 1, -2 # 1))).
  discriminate.
Defined.

Lemma zero_width_falls_back_witness :
  Scenarios.sampleUpdate 100 (0, -1)%Z 0 40 None
  = Scenarios.sampleUpdate 100 (0, -1)%Z 100 40 None.
Proof.
  apply (zero_width_falls_back Q (fun w => w) (fun _ _ h => h) (fun _ w => w)
           (fun q => q) 12 100 0%Z (-1)%Z 0 40 None).
  - discriminate.
  - reflexivity.
Defined.

Lemma direction_only_through_zeroes_witness :
  Scenarios.sampleUpdate 100 (1, -1)%Z 120 40 None
  = Scenarios.sampleUpdate 100 (-1, 1)%Z 120 40 None.
Proof.
  apply (direction_only_through_zeroes Q (fun w => w) (fun _ _ h => h)
           (fun _ w => w) (fun q => q) 12 100 1%Z (-1)%Z (-1)%Z 1%Z 120 40
           None); split; discriminate.
Defined.

Lemma width_only_ignores_height_and_delta_witness :
  Scenarios.sampleUpdate 100 (1, 0)%Z 120 40 None
  = Scenarios.sampleUpdate 100 (1, 0)%Z 120 8 (Some (-3 # 1, -2 # 1)) /\
  exists o,
    Scenarios.sampleUpdate 100 (1, 0)%Z 120 40 None = Some o /\
    Lifecycle.getField "skipUpdates" o = None.
Proof.
  apply (width_only_ignores_height_and_delta Q (fun w => w) (fun _ _ h => h)
           (fun _ w => w) (fun q => q) 12 100 1%Z 120 40 8 None
           (Some (-3 # 1, -2 # 1))).
  discriminate.
Defined.

End TextResizeMore.

(** * The scrollbar that goes away, and the test helper *)

Module Leftovers.

Import Gallery.

(** X21. When the measured scrollbar width changes to zero, the render that
    measures it and the render that follows both complete and leave the
    container as the browser laid it out: a right padding written for an
    earlier scrollbar is still there. *)
Theorem padding_kept_when_scrollbar_goes (f : Fiber) (el : Element) :
  settled f ->
  offsetWidth el - clientWidth el <> scrollbarWidth (inst f) ->
  offsetWidth el - clientWidth el = 0 ->
  exists f1 f2,
    commit (Some el) f = Normal f1 /\
    rerender f1 = Normal f2 /\
    settled f2 /\
    refContainer (inst f2) = Some el.
Proof.
  intros Hs Hw Hz.
  destruct (GalleryEffects.renders_after_change f el Hs Hw) as (f1 & H1 & H2).
  rewrite Hz in H2. cbn in H2.
  exists f1. eexists. split; [exact H1|]. split; [exact H2|].
  split; reflexivity.
Qed.

Lemma padding_kept_when_scrollbar_goes_witness :
  stylePaddingRight MoreScenarios.paddedWithoutScrollbar
  = Some (24 - inject_Z 15)%Q /\
  exists f1 f2,
    commit (Some MoreScenarios.paddedWithoutScrollbar) MoreScenarios.paddedFiber
    = Normal f1 /\
    rerender f1 = Normal f2 /\
    settled f2 /\
    refContainer (inst f2) = Some MoreScenarios.paddedWithoutScrollbar.
Proof.
  split; [reflexivity|].
  apply (padding_kept_when_scrollbar_goes MoreScenarios.paddedFiber
           MoreScenarios.paddedWithoutScrollbar).
  - reflexivity.
  - discriminate.
  - reflexivity.
Defined.

(** X22. [clickOnTarget] clicks inside its target: for a rectangle whose
    width and height are not negative, the point lies between the left and
    the right edge and between the top and the bottom edge. *)
Theorem click_lands_on_target (target : PageAttachmentTest.DOMRect) :
  (0 <= PageAttachmentTest.width target)%Q ->
  (0 <= PageAttachmentTest.height target)%Q ->
  (PageAttachmentTest.x target
   <= fst (PageAttachmentTest.clickOnTarget target)
   <= PageAttachmentTest.x target + PageAttachmentTest.width target)%Q /\
  (PageAttachmentTest.y target
   <= snd (PageAttachmentTest.clickOnTarget target)
   <= PageAttachmentTest.y target + PageAttachmentTest.height target)%Q.
Proof.
  intros Hw Hh. unfold PageAttachmentTest.clickOnTarget. cbn [fst snd].
  unfold Qdiv. change (/ 2)%Q with (1 # 2)%Q.
  repeat split; lra.
Qed.

Lemma click_lands_on_target_witness :
  (10 <= fst (PageAttachmentTest.clickOnTarget
                {| PageAttachmentTest.x := 10; PageAttachmentTest.y := 10;
                   PageAttachmentTest.width := 50;
                   PageAttachmentTest.height := 50 |})
   <= 10 + 50)%Q /\
  (10 <= snd (PageAttachmentTest.clickOnTarget
                {| PageAttachmentTest.x := 10; PageAttachmentTest.y := 10;
                   PageAttachmentTest.width := 50;
                   PageAttachmentTest.height := 50 |})
   <= 10 + 50)%Q.
Proof.
  apply (click_lands_on_target
           {| PageAttachmentTest.x := 10; PageAttachmentTest.y := 10;
              PageAttachmentTest.width := 50;
              PageAttachmentTest.height := 50 |}); discriminate.
Defined.

End Leftovers.

(** * The check of an earlier render while a request is in flight *)

Module StaleCheck.

Import Gallery SettleCheck Scenarios.

(** C2. The code does not keep what the claim says: a render with nothing
    loading starts the check that runs 200 time units later; 100 units
    later a render has [isMediaLoading] true and nothing has been requested,
    and an evaluation of the [loadNextPageIfNeeded] of that render would
    request nothing; yet at 200 units the check of the first render runs on
    the props of its own render and calls [setNextPage], while loading has
    not completed. *)
Theorem request_made_while_loading :
  requests (run MoreScenarios.loadingStarted) = [] /\
  deps (run MoreScenarios.loadingStarted)
  = Some (callbackDeps (props true true true) 0) /\
  isMediaLoading (props true true true) = true /\
  loadNextPageIfNeeded (node (run MoreScenarios.loadingStarted))
    (props true true true) = Normal [] /\
  requests (run (MoreScenarios.loadingStarted ++ [Elapse 100]))
  = [setNextPage].
Proof. repeat split. Qed.

End StaleCheck.
